(** * BeautificationManager: the beautify orchestrator of
    [src/features/BeautificationManager.js]

    The module asks the registered beautification providers, in priority
    order, for beautified text, applies the first answer to the active editor
    and tells the user when nobody answered.  The functions of the source are
    embedded below under their own names; the host application's
    collaborators (editor, project manager, string table, registry) are not
    part of the module and are modelled or taken as parameters. *)

From Stdlib Require Import Ascii String.
From stdpp Require Import gmap strings list.

(** ** Document text *)

(** Positions as the editor API passes them: [{line, ch}], both zero based. *)
Record Pos := mkPos { line : nat; ch : nat }.

#[global] Instance Pos_eq_dec : EqDecision Pos.
Proof. solve_decision. Defined.

Definition isNewline (a : Ascii.ascii) : bool := Ascii.eqb a "010"%char.

(** [text.slice(0, n)] and [text.slice(n)] on the flat document text. *)
Fixpoint sliceTo (n : nat) (s : string) : string :=
  match n, s with
  | S n', String a s' => String a (sliceTo n' s')
  | _, _ => ""
  end.

Fixpoint sliceFrom (n : nat) (s : string) : string :=
  match n, s with
  | S n', String _ s' => sliceFrom n' s'
  | _, _ => s
  end.

Definition slice (i j : nat) (s : string) : string :=
  sliceTo (j - i) (sliceFrom i s).

(** Offset of a position in the flat text.  A line past the last one is the
    end of the document, a column past the end of its line is the end of
    that line. *)
Fixpoint indexFromPos (s : string) (l c : nat) : nat :=
  match s with
  | "" => 0
  | String a s' =>
      match l with
      | 0 =>
          match c with
          | 0 => 0
          | S c' => if isNewline a then 0 else S (indexFromPos s' 0 c')
          end
      | S l' => S (if isNewline a then indexFromPos s' l' c
                   else indexFromPos s' l c)
      end
  end.

(** Position of an offset, counting from position [{l, c}] at offset 0. *)
Fixpoint posFromIndexAt (s : string) (n l c : nat) : Pos :=
  match n, s with
  | S n', String a s' =>
      if isNewline a then posFromIndexAt s' n' (S l) 0
      else posFromIndexAt s' n' l (S c)
  | _, _ => mkPos l c
  end.

Definition posFromIndex (s : string) (n : nat) : Pos := posFromIndexAt s n 0 0.

Definition offsetOf (s : string) (p : Pos) : nat := indexFromPos s (line p) (ch p).

(** ** The editor *)

(** The active editor/document accessor of the host (spec section 6: file
    path, full text, a range-read operation, cursor get/set, selection
    get/clear, and text-replace operations, whole-range and selection-based).
    Its implementation, [editor/Editor.js] over the text widget, is not part
    of this module. *)
Module Editor.

(** Modelled from the spec: the editor and its document, whose code is not
    in the module.  The document is its flat text; the selection is an
    anchor and a head, and the cursor is the head; [history] holds the texts
    the undo stack can go back to, newest first.  Cursor positions are kept
    as they are set. *)
Record t := mk {
  fullPath : string;      (* editor.document.file.fullPath *)
  name : string;          (* editor.getFile().name *)
  text : string;
  anchor : Pos;
  head : Pos;
  history : list string
}.

(** Modelled from the spec: the range-read operation,
    [editor.document.getRange(from, to)]. *)
Definition getRange (e : t) (from to : Pos) : string :=
  slice (offsetOf (text e) from) (offsetOf (text e) to) (text e).

(** Modelled from the spec: the end of the full-text range,
    [editor.getEndingCursorPos()]. *)
Definition getEndingCursorPos (e : t) : Pos :=
  posFromIndex (text e) (String.length (text e)).

(** Modelled from the spec: cursor get, [editor.getCursorPos()]. *)
Definition getCursorPos (e : t) : Pos := head e.

(** Modelled from the spec: cursor set, [editor.setCursorPos(line, ch)];
    nothing stays selected. *)
Definition setCursorPos (e : t) (l c : nat) : t :=
  mk (fullPath e) (name e) (text e) (mkPos l c) (mkPos l c) (history e).

(** Modelled from the spec: selection get, [editor.hasSelection()]. *)
Definition hasSelection (e : t) : bool := bool_decide (anchor e ≠ head e).

(** Modelled from the spec: selection clear, [editor.clearSelection()],
    which leaves the cursor where it is. *)
Definition clearSelection (e : t) : t :=
  let pos := getCursorPos e in setCursorPos e (line pos) (ch pos).

(** Modelled from the spec: [editor.setSelection(start, end)]. *)
Definition setSelection (e : t) (start end_ : Pos) : t :=
  mk (fullPath e) (name e) (text e) start end_ (history e).

(** The text after the span between offsets [i] and [j] gave way to
    [new]. *)
Definition splice (i j : nat) (new s : string) : string :=
  sliceTo i s +:+ new +:+ sliceFrom j s.

(** Where a position lands after the span [i, j) of [old] was replaced by
    [len] characters, giving [new]: positions before the span stay, those
    inside go to the end of the inserted text, those after are shifted. *)
Definition adjustForChange (old new : string) (i j len : nat) (p : Pos) : Pos :=
  let k := offsetOf old p in
  if (k <? i)%nat then p
  else posFromIndex new (if (k <=? j)%nat then i + len else k - j + i + len).

(** Modelled from the spec: the whole-range text replacement,
    [editor.replaceRange(text, from, to)], one entry on the undo stack. *)
Definition replaceRange (e : t) (new : string) (from to : Pos) : t :=
  let i := offsetOf (text e) from in
  let j := offsetOf (text e) to in
  let lo := i `min` j in
  let hi := i `max` j in
  let text' := splice lo hi new (text e) in
  let adj := adjustForChange (text e) text' lo hi (String.length new) in
  mk (fullPath e) (name e) text' (adj (anchor e)) (adj (head e))
     (text e :: history e).

(** Modelled from the spec: the selection-based text replacement,
    [editor.replaceSelection(text, 'around')]: the selected span gives way
    to the text, which is left selected; one entry on the undo stack. *)
Definition replaceSelection_around (e : t) (new : string) : t :=
  let i := offsetOf (text e) (anchor e) in
  let j := offsetOf (text e) (head e) in
  let lo := i `min` j in
  let hi := i `max` j in
  let text' := splice lo hi new (text e) in
  mk (fullPath e) (name e) text'
     (posFromIndex text' lo) (posFromIndex text' (lo + String.length new))
     (text e :: history e).

(** Modelled from the spec: [editor.operation(f)] runs [f] as a single
    editing operation of the host. *)
Definition operation (f : t → t) (e : t) : t := f e.

End Editor.

(** ** Results of a provider *)

(** [ranges] of a result: the two cursors of the span to replace. *)
Record Ranges := mkRanges { replaceStart : Pos; replaceEnd : Pos }.

(** The details [_replaceText] works on: [_prettify] hands it only objects
    whose [changedText] is a non-empty string. *)
Record BeautyObject := mkBeautyObject {
  changedText : string;
  ranges : option Ranges
}.

(* function _replaceText(editor, beautyObject) *)
Definition _replaceText (editor : Editor.t) (beautyObject : BeautyObject) : Editor.t :=
  match ranges beautyObject with
  | Some ranges =>
      if bool_decide (Editor.getRange editor (replaceStart ranges) (replaceEnd ranges)
                      ≠ changedText beautyObject)
      then
        let editor := Editor.setSelection editor (replaceStart ranges) (replaceEnd ranges) in
        Editor.replaceSelection_around editor (changedText beautyObject)
      else editor
  | None =>
      if bool_decide (Editor.getRange editor (mkPos 0 0) (Editor.getEndingCursorPos editor)
                      ≠ changedText beautyObject)
      then
        let cursor := Editor.getCursorPos editor in
        let editor := Editor.replaceRange editor (changedText beautyObject)
                        (mkPos 0 0) (Editor.getEndingCursorPos editor) in
        Editor.setCursorPos editor (line cursor) (ch cursor)
      else editor
  end.

(** What a provider's promise resolves with: [null] (or any other falsy
    value), or an object, whose [changedText] may be missing and whose
    [ranges] are optional.  A truthy value that is no object has no
    [changedText] and is read as [Details None None]. *)
Inductive Resolution :=
| Null
| Details (changedText : option string) (ranges : option Ranges).

(** How the promise of [provider.beautify(editor)] settles.  A call that
    throws is caught by the same handler as a rejection. *)
Inductive Settlement :=
| Resolves (v : Resolution)
| Rejects
| NeverSettles.

(** A provider object: [beautify] is missing on a malformed registration.
    A provider is described by how its promise settles for the editor it is
    handed; [providerName] stands for the identity of the object. *)
Record Provider := mkProvider {
  providerName : string;
  beautify : option (Editor.t → Settlement)
}.

(** An entry of the priority registry. *)
Record Item := mkItem { provider : Provider; priority : Z }.

(** State of a promise when the job queue has run dry. *)
Inductive Promise (A : Type) :=
| Fulfilled (v : A)
| Rejected (reason : string)
| Pending.
Arguments Fulfilled {A} v.
Arguments Rejected {A} reason.
Arguments Pending {A}.

(** ** Effects on the host *)

Inductive Event :=
| ConsoleError (providerOfItem : string)   (* console.error("Beautify providers must implement beautify function", item) *)
| BeautifyCalled (providerCalled : string) (seen : Editor.t)   (* item.provider.beautify(editor) *)
| SetProjectBusy (busy : bool) (message : string)              (* ProjectManager.setProjectBusy *)
| DisplayErrorMessageAtCursor (message : string)               (* editor.displayErrorMessageAtCursor *)
| ConsoleLog (message : string).

Definition isSetProjectBusy (b : bool) (ev : Event) : bool :=
  match ev with
  | SetProjectBusy b' _ => bool_decide (b = b')
  | _ => false
  end.

Definition isBeautifyCalled (ev : Event) : bool :=
  match ev with BeautifyCalled _ _ => true | _ => false end.

Definition isConsoleError (ev : Event) : bool :=
  match ev with ConsoleError _ => true | _ => false end.

Definition isDisplayErrorMessage (ev : Event) : bool :=
  match ev with DisplayErrorMessageAtCursor _ => true | _ => false end.

Definition count (p : Event → bool) (evs : list Event) : nat :=
  length (filter (λ ev, p ev = true) evs).

(** The saved document handed to the [documentSaved] handler. *)
Record Document := mkDocument { docFullPath : string (* doc.file.fullPath *) }.

(** What the module reads and writes besides its arguments: the active
    editor of [EditorManager], [localStorage], the checkmark of the
    "beautify on save" command, and the calls made on the host, oldest
    first. *)
Record State := mkState {
  activeEditor : option Editor.t;
  localStorage : gmap string string;
  beautifyOnSaveChecked : bool;
  log : list Event
}.

Definition emit (evs : list Event) (st : State) : State :=
  mkState (activeEditor st) (localStorage st) (beautifyOnSaveChecked st) (log st ++ evs).

Definition withEditor (e : Editor.t) (st : State) : State :=
  mkState (Some e) (localStorage st) (beautifyOnSaveChecked st) (log st).

(** The collaborators the module requires and this development takes as
    given: the language of a path, the priority registry's answer for a
    language id, the string table and [StringUtils.format]. *)
Record Host := mkHost {
  getLanguageForPath : string → string;            (* LanguageManager.getLanguageForPath(path).getId() *)
  getProvidersForLanguageId : string → list Item;  (* _providerRegistrationHandler *)
  BEAUTIFY_PROJECT_BUSY_MESSAGE : string;
  BEAUTIFY_ERROR : string;
  BEAUTIFY_ERROR_SELECTION : string;
  format : string → string → string                (* StringUtils.format(str, arg) *)
}.

Section Orchestrator.

Context (host : Host).

(* function _getEnabledProviders(editor) *)
Definition _getEnabledProviders (editor : Editor.t) : list Item :=
  let filepath := Editor.fullPath editor in
  let language := getLanguageForPath host filepath in
  getProvidersForLanguageId host language.

(** The [for ... of] loop of [_getBeautifiedCodeDetails] over the providers
    still to try, with the calls it makes. *)
Fixpoint tryProviders (editor : Editor.t) (enabledProviders : list Item)
  : Promise Resolution * list Event :=
  match enabledProviders with
  | [] => (Rejected "No Providers beautified text", [])
  | item :: rest =>
      match beautify (provider item) with
      | None =>
          let '(p, evs) := tryProviders editor rest in
          (p, ConsoleError (providerName (provider item)) :: evs)
      | Some beautify =>
          let called := BeautifyCalled (providerName (provider item)) editor in
          match beautify editor with
          | Resolves (Details changedText ranges) =>
              (Fulfilled (Details changedText ranges), [called])
          | Resolves Null | Rejects =>
              let '(p, evs) := tryProviders editor rest in (p, called :: evs)
          | NeverSettles => (Pending, [called])
          end
      end
  end.

(* async function _getBeautifiedCodeDetails(editor) *)
Definition _getBeautifiedCodeDetails (editor : Editor.t)
  : Promise Resolution * list Event :=
  let enabledProviders := _getEnabledProviders editor in
  tryProviders editor enabledProviders.

(** The [.catch] handler of [_prettify]. *)
Definition onFailure (editor : Editor.t) (busyMessage : string) (st : State) : State :=
  let message := if Editor.hasSelection editor
                 then BEAUTIFY_ERROR_SELECTION host else BEAUTIFY_ERROR host in
  emit [DisplayErrorMessageAtCursor message;
        SetProjectBusy false busyMessage;
        ConsoleLog "No beautify providers responded"] st.

(** The [.then] handler of [_prettify]. *)
Definition onDetails (editor : Editor.t) (busyMessage : string)
    (beautyObject : Resolution) (st : State) : State :=
  match beautyObject with
  | Null => st
  | Details None _ => st
  | Details (Some changedText) ranges =>
      if bool_decide (changedText = "") then st
      else
        let st := withEditor
                    (Editor.operation
                       (λ editor, _replaceText editor (mkBeautyObject changedText ranges))
                       editor) st in
        emit [SetProjectBusy false busyMessage; ConsoleLog "Beautified"] st
  end.

(* function _prettify() *)
Definition _prettify (st : State) : State :=
  match activeEditor st with
  | None => st
  | Some editor =>
      let busyMessage := format host (BEAUTIFY_PROJECT_BUSY_MESSAGE host) (Editor.name editor) in
      let st := emit [SetProjectBusy true busyMessage] st in
      let '(promise, evs) := _getBeautifiedCodeDetails editor in
      let st := emit evs st in
      match promise with
      | Fulfilled beautyObject => onDetails editor busyMessage beautyObject st
      | Rejected _ => onFailure editor busyMessage st
      | Pending => st
      end
  end.

(* function _isBeautifyOnSaveEnabled() *)
Definition _isBeautifyOnSaveEnabled (st : State) : bool :=
  bool_decide (localStorage st !! "BeautifyOnSave" = Some "true").

(* function _prettifyOnSave(_evt, doc) *)
Definition _prettifyOnSave (doc : Document) (st : State) : State :=
  let editor := activeEditor st in
  if negb (_isBeautifyOnSaveEnabled st) then st
  else
    match editor with
    | None => st
    | Some editor =>
        if bool_decide (Editor.fullPath editor ≠ docFullPath doc) then st
        else _prettify (withEditor (Editor.clearSelection editor) st)
    end.

(** The template literal [`${b}`] of a boolean. *)
Definition templateOfBool (b : bool) : string := if b then "true" else "false".

(* function _toggleBeautifyOnSave() *)
Definition _toggleBeautifyOnSave (st : State) : State :=
  let beautifyOnSave := _isBeautifyOnSaveEnabled st in
  mkState (activeEditor st)
          (<["BeautifyOnSave" := templateOfBool (negb beautifyOnSave)]> (localStorage st))
          (negb beautifyOnSave)
          (log st).

End Orchestrator.

(** The settlement of [item.provider.beautify(editor)], when the provider
    has a [beautify] at all. *)
Definition answer (item : Item) (editor : Editor.t) : option Settlement :=
  (λ beautify, beautify editor) <$> beautify (provider item).

(** The call the loop makes on an item that has a [beautify]. *)
Definition called (editor : Editor.t) (item : Item) : Event :=
  BeautifyCalled (providerName (provider item)) editor.

(** The busy message [_prettify] computes for an editor. *)
Definition busyMessageOf (host : Host) (editor : Editor.t) : string :=
  format host (BEAUTIFY_PROJECT_BUSY_MESSAGE host) (Editor.name editor).

(** The message shown when nobody beautified. *)
Definition failureMessage (host : Host) (editor : Editor.t) : string :=
  if Editor.hasSelection editor then BEAUTIFY_ERROR_SELECTION host else BEAUTIFY_ERROR host.

(** What the handlers of [_prettify] add to the log once the promise of
    [_getBeautifiedCodeDetails] is in state [p]. *)
Definition settledEvents (host : Host) (editor : Editor.t) (p : Promise Resolution)
  : list Event :=
  match p with
  | Fulfilled (Details (Some changedText) _) =>
      if bool_decide (changedText = "") then []
      else [SetProjectBusy false (busyMessageOf host editor); ConsoleLog "Beautified"]
  | Fulfilled _ => []
  | Rejected _ =>
      [DisplayErrorMessageAtCursor (failureMessage host editor);
       SetProjectBusy false (busyMessageOf host editor);
       ConsoleLog "No beautify providers responded"]
  | Pending => []
  end.


(** The stored value of the "beautify on save" preference. *)
Definition storedBeautifyOnSave (st : State) : option string :=
  localStorage st !! "BeautifyOnSave".

(** ** Sample data *)

Module Sample.

(** Two lines of JavaScript, the first five characters selected. *)
Definition editor : Editor.t :=
  Editor.mk "/project/main.js" "main.js" "let  x=1;
let y = 2;" (mkPos 0 0) (mkPos 0 5) [].


Definition declines (n : string) : Item :=
  mkItem (mkProvider n (Some (λ _, Rejects))) 0.

Definition resolvesNull (n : string) : Item :=
  mkItem (mkProvider n (Some (λ _, Resolves Null))) 0.

Definition resolvesText (n : string) (changed : string) : Item :=
  mkItem (mkProvider n (Some (λ _, Resolves (Details (Some changed) None)))) 0.

Definition malformed (n : string) : Item := mkItem (mkProvider n None) 0.

(** A host whose registry holds [items] for JavaScript and nothing else;
    [format] here puts the argument after the message. *)
Definition hostWith (items : list Item) : Host :=
  mkHost (λ _, "javascript")
         (λ languageId, if bool_decide (languageId = "javascript") then items else [])
         "Beautifying "
         "Could not beautify code"
         "Could not beautify selection"
         (λ str arg, str +:+ arg).

Definition state (stored : option string) (checked : bool) : State :=
  mkState (Some editor)
          (match stored with
           | Some v => {[ "BeautifyOnSave" := v ]}
           | None => ∅
           end)
          checked [].

End Sample.

(** ** The rest of the module *)

(* function _onActiveEditorChange(_evt, current): the argument of the one
   call of beautifyCommand.setEnabled it makes. *)
Definition _onActiveEditorChange (host : Host) (current : option Editor.t) : bool :=
  match current with
  | Some current =>
      if bool_decide (length (_getEnabledProviders host current) ≠ 0) then true
      else false
  | None => false
  end.

(** An item after which the loop of [_getBeautifiedCodeDetails] goes on to
    the next one: it has no [beautify], or its promise rejects, or resolves
    with a falsy value. *)
Definition letsLoopContinue (editor : Editor.t) (item : Item) : bool :=
  match answer item editor with
  | None | Some Rejects | Some (Resolves Null) => true
  | Some (Resolves (Details _ _)) | Some NeverSettles => false
  end.

(** What the loop logs when it handles an item: the diagnostic for an item
    without [beautify], the call otherwise. *)
Definition eventOf (editor : Editor.t) (item : Item) : Event :=
  match beautify (provider item) with
  | None => ConsoleError (providerName (provider item))
  | Some _ => called editor item
  end.

(** The module state together with the enabled flag of the "beautify code"
    command, which [_onActiveEditorChange] sets. *)
Record Session := mkSession {
  moduleState : State;
  beautifyCommandEnabled : bool
}.

(** What the callback of [AppInit.appReady] leaves behind besides the
    registrations: the "beautify on save" command is checked as the stored
    preference says. *)
Definition appReady (s : Session) : Session :=
  let st := moduleState s in
  mkSession (mkState (activeEditor st) (localStorage st)
                     (_isBeautifyOnSaveEnabled st) (log st))
            (beautifyCommandEnabled s).

(** What the registrations of [appReady] react to: the two commands, the
    [activeEditorChange] event of [EditorManager], which hands over the
    editor that is active from then on, and the [documentSaved] event of
    [DocumentManager]. *)
Inductive Trigger :=
| ExecuteBeautifyCode
| ExecuteBeautifyCodeOnSave
| ActiveEditorChange (current : option Editor.t)
| DocumentSaved (doc : Document).

Definition setActiveEditor (current : option Editor.t) (st : State) : State :=
  mkState current (localStorage st) (beautifyOnSaveChecked st) (log st).

(** The handler registered for each trigger. *)
Definition handle (host : Host) (t : Trigger) (s : Session) : Session :=
  match t with
  | ExecuteBeautifyCode =>
      mkSession (_prettify host (moduleState s)) (beautifyCommandEnabled s)
  | ExecuteBeautifyCodeOnSave =>
      mkSession (_toggleBeautifyOnSave (moduleState s)) (beautifyCommandEnabled s)
  | ActiveEditorChange current =>
      mkSession (setActiveEditor current (moduleState s))
                (_onActiveEditorChange host current)
  | DocumentSaved doc =>
      mkSession (_prettifyOnSave host doc (moduleState s)) (beautifyCommandEnabled s)
  end.

Definition run (host : Host) (ts : list Trigger) (s : Session) : Session :=
  foldl (λ s t, handle host t s) s ts.

(** Further sample data. *)
Module Scenario.

Definition neverSettles (n : string) : Item :=
  mkItem (mkProvider n (Some (λ _, NeverSettles))) 0.

Definition resolvesRange (n : string) (changed : string) (rg : Ranges) : Item :=
  mkItem (mkProvider n (Some (λ _, Resolves (Details (Some changed) (Some rg))))) 0.

(** A Python file, for which [Sample.hostWith] has no provider. *)
Definition pythonEditor : Editor.t :=
  Editor.mk "/project/tool.py" "tool.py" "x=1" (mkPos 0 0) (mkPos 0 3) [].

(** A host that tells languages apart by the last two characters of the
    path and has [items] for JavaScript only. *)
Definition hostByExtension (items : list Item) : Host :=
  mkHost (λ path, if bool_decide (sliceFrom (String.length path - 2) path = "js")
                  then "javascript" else "other")
         (λ languageId, if bool_decide (languageId = "javascript") then items else [])
         "Beautifying "
         "Could not beautify code"
         "Could not beautify selection"
         (λ str arg, str +:+ arg).

Definition session (e : option Editor.t) (stored : option string) (checked enabled : bool)
  : Session :=
  mkSession (mkState e
               (match stored with
                | Some v => {[ "BeautifyOnSave" := v ]}
                | None => ∅
                end)
               checked [])
            enabled.

End Scenario.

(** ** Text lemmas *)

Section Text.

Implicit Types s t : string.
Implicit Types n m l c : nat.

Lemma append_nil_l s : "" +:+ s = s.
Proof. reflexivity. Qed.

Lemma append_cons a s t : String a s +:+ t = String a (s +:+ t).
Proof. reflexivity. Qed.

Lemma append_empty_r s : s +:+ "" = s.
Proof.
  induction s as [|a s IH]; [done |].
  by rewrite append_cons, IH.
Qed.

Lemma length_append s t : String.length (s +:+ t) = String.length s + String.length t.
Proof.
  induction s as [|a s IH]; [done |].
  rewrite append_cons. simpl. by rewrite IH.
Qed.

Lemma sliceTo_length s : sliceTo (String.length s) s = s.
Proof. induction s as [|a s IH]; simpl; [done | by rewrite IH]. Qed.

Lemma sliceFrom_length s : sliceFrom (String.length s) s = "".
Proof. induction s as [|a s IH]; simpl; done. Qed.

Lemma sliceTo_sliceFrom n s : sliceTo n s +:+ sliceFrom n s = s.
Proof.
  revert s; induction n as [|n IH]; intros [|a s]; simpl; try done.
  by rewrite append_cons, IH.
Qed.

Lemma length_sliceTo n s : (n ≤ String.length s)%nat → String.length (sliceTo n s) = n.
Proof.
  revert s; induction n as [|n IH]; intros [|a s]; simpl; try done; try lia.
  intros H. rewrite IH; lia.
Qed.

Lemma sliceTo_app s t : sliceTo (String.length s) (s +:+ t) = s.
Proof.
  induction s as [|a s IH]; [by destruct t |].
  rewrite append_cons. simpl. by rewrite IH.
Qed.

Lemma sliceFrom_app s t : sliceFrom (String.length s) (s +:+ t) = t.
Proof.
  induction s as [|a s IH]; [done |].
  rewrite append_cons. simpl. done.
Qed.

Lemma sliceFrom_plus n m s : sliceFrom (n + m) s = sliceFrom m (sliceFrom n s).
Proof.
  revert s; induction n as [|n IH]; intros s; simpl; [done |].
  destruct s as [|a s]; [by destruct m | apply IH].
Qed.

Lemma indexFromPos_le s l c : (indexFromPos s l c ≤ String.length s)%nat.
Proof.
  revert l c; induction s as [|a s IH]; intros l c; simpl; [lia |].
  destruct l as [|l].
  - destruct c as [|c]; [lia |].
    destruct (isNewline a); [lia |]. specialize (IH 0 c). lia.
  - destruct (isNewline a); [specialize (IH l c) | specialize (IH (S l) c)]; lia.
Qed.

(** The position of the end of the text leads back to its length. *)
Lemma indexFromPos_end_at s l c :
  let p := posFromIndexAt s (String.length s) l c in
  (line p = l ∧ (c ≤ ch p)%nat ∧ indexFromPos s 0 (ch p - c) = String.length s)
  ∨ ((l < line p)%nat ∧ indexFromPos s (line p - l) (ch p) = String.length s).
Proof.
  revert l c; induction s as [|a s IH]; intros l c.
  - left. simpl. replace (c - c) with 0 by lia. auto.
  - cbn [posFromIndexAt String.length].
    destruct (isNewline a) eqn:Hnl.
    + right. destruct (IH (S l) 0) as [(Hl & _ & Hi) | (Hl & Hi)];
        set (p := posFromIndexAt s (String.length s) (S l) 0) in *.
      * split; [lia |].
        replace (line p - l) with 1 by lia.
        replace (ch p - 0) with (ch p) in Hi by lia.
        cbn [indexFromPos]. rewrite Hnl. by rewrite Hi.
      * split; [lia |].
        replace (line p - l) with (S (line p - S l)) by lia.
        cbn [indexFromPos]. rewrite Hnl. by rewrite Hi.
    + destruct (IH l (S c)) as [(Hl & Hc & Hi) | (Hl & Hi)];
        set (p := posFromIndexAt s (String.length s) l (S c)) in *.
      * left. split; [done |]. split; [lia |].
        replace (ch p - c) with (S (ch p - S c)) by lia.
        cbn [indexFromPos]. rewrite Hnl. by rewrite Hi.
      * right. split; [done |].
        destruct (line p - l) as [|k] eqn:Hk; [lia |].
        cbn [indexFromPos]. rewrite Hnl. by rewrite Hi.
Qed.

Lemma offsetOf_end s : offsetOf s (posFromIndex s (String.length s)) = String.length s.
Proof.
  unfold offsetOf, posFromIndex.
  destruct (indexFromPos_end_at s 0 0) as [(Hl & _ & Hi) | (Hl & Hi)].
  - rewrite Hl. by rewrite Nat.sub_0_r in Hi.
  - by rewrite Nat.sub_0_r in Hi.
Qed.

Lemma offsetOf_origin s : offsetOf s (mkPos 0 0) = 0.
Proof. by destruct s. Qed.

Lemma slice_all s : slice 0 (String.length s) s = s.
Proof. unfold slice. rewrite Nat.sub_0_r. simpl. apply sliceTo_length. Qed.

End Text.

(** ** Applying a result to the editor *)

Section ReplaceText.

Implicit Types editor : Editor.t.

Lemma getRange_whole editor :
  Editor.getRange editor (mkPos 0 0) (Editor.getEndingCursorPos editor)
  = Editor.text editor.
Proof.
  unfold Editor.getRange, Editor.getEndingCursorPos.
  rewrite offsetOf_origin, offsetOf_end. apply slice_all.
Qed.

Lemma splice_whole new s : Editor.splice 0 (String.length s) new s = new.
Proof.
  unfold Editor.splice. rewrite sliceFrom_length. simpl.
  rewrite append_nil_l. apply append_empty_r.
Qed.

Lemma splice_prefix i j new s :
  (i ≤ String.length s)%nat → sliceTo i (Editor.splice i j new s) = sliceTo i s.
Proof.
  intros Hi. unfold Editor.splice.
  rewrite <- (length_sliceTo i s Hi) at 1. apply sliceTo_app.
Qed.

Lemma splice_rest i j new s :
  (i ≤ String.length s)%nat →
  sliceFrom i (Editor.splice i j new s) = new +:+ sliceFrom j s.
Proof.
  intros Hi. unfold Editor.splice.
  rewrite <- (length_sliceTo i s Hi) at 1. apply sliceFrom_app.
Qed.

Lemma splice_middle i j new s :
  (i ≤ String.length s)%nat →
  slice i (i + String.length new) (Editor.splice i j new s) = new.
Proof.
  intros Hi. unfold slice. rewrite splice_rest by done.
  replace (i + String.length new - i) with (String.length new) by lia.
  apply sliceTo_app.
Qed.

Lemma splice_suffix i j new s :
  (i ≤ String.length s)%nat →
  sliceFrom (i + String.length new) (Editor.splice i j new s) = sliceFrom j s.
Proof.
  intros Hi. rewrite sliceFrom_plus, splice_rest by done. apply sliceFrom_app.
Qed.

End ReplaceText.

(** C5.  With [ranges] in the result, [_replaceText] reads the text of the
    document between [replaceStart] and [replaceEnd] and compares it with
    [changedText]: when they are the same the editor is left as it was (text,
    selection and undo history); otherwise the text becomes what was before
    the range, then [changedText], then what was after the range, so that the
    text before and after the range is as it was, in one undo step. *)
Theorem replaceText_ranges (editor : Editor.t) (changed : string) (rg : Ranges) :
  let s := Editor.text editor in
  let i := offsetOf s (replaceStart rg) in
  let j := offsetOf s (replaceEnd rg) in
  let editor' := _replaceText editor (mkBeautyObject changed (Some rg)) in
  (i ≤ j)%nat →
  Editor.getRange editor (replaceStart rg) (replaceEnd rg) = slice i j s ∧
  (slice i j s = changed → editor' = editor) ∧
  (slice i j s ≠ changed →
     Editor.text editor' = sliceTo i s +:+ changed +:+ sliceFrom j s ∧
     sliceTo i (Editor.text editor') = sliceTo i s ∧
     slice i (i + String.length changed) (Editor.text editor') = changed ∧
     sliceFrom (i + String.length changed) (Editor.text editor') = sliceFrom j s ∧
     Editor.history editor' = s :: Editor.history editor).
Proof.
  intros s i j editor' Hij.
  split; [reflexivity |].
  assert (Hi : (i ≤ String.length s)%nat) by apply indexFromPos_le.
  subst editor'. unfold _replaceText. cbn [ranges changedText].
  unfold Editor.getRange. fold s i j.
  split; intros Hcmp.
  - rewrite bool_decide_eq_false_2; [done | by intros []].
  - rewrite bool_decide_eq_true_2 by done.
    unfold Editor.replaceSelection_around, Editor.setSelection.
    cbn [Editor.text Editor.anchor Editor.head Editor.history].
    fold s i j.
    rewrite (Nat.min_l i j), (Nat.max_r i j) by done.
    split; [done |].
    split; [by apply splice_prefix |].
    split; [by apply splice_middle |].
    split; [by apply splice_suffix | done].
Qed.

(** C6.  Without [ranges], [_replaceText] compares the text of the whole
    document with [changedText]: when they are the same the editor is left
    as it was; otherwise the whole text becomes [changedText], in one undo
    step, and the cursor is afterwards put at the line and column it had
    before the replacement, with nothing selected. *)
Theorem replaceText_whole_document (editor : Editor.t) (changed : string) :
  let editor' := _replaceText editor (mkBeautyObject changed None) in
  Editor.getRange editor (mkPos 0 0) (Editor.getEndingCursorPos editor)
    = Editor.text editor ∧
  (Editor.text editor = changed → editor' = editor) ∧
  (Editor.text editor ≠ changed →
     Editor.text editor' = changed ∧
     Editor.getCursorPos editor' = Editor.getCursorPos editor ∧
     Editor.hasSelection editor' = false ∧
     Editor.history editor' = Editor.text editor :: Editor.history editor).
Proof.
  intros editor'.
  split; [apply getRange_whole |].
  subst editor'. unfold _replaceText. cbn [ranges changedText].
  rewrite getRange_whole.
  split; intros Hcmp.
  - rewrite bool_decide_eq_false_2; [done | by intros []].
  - rewrite bool_decide_eq_true_2 by done.
    unfold Editor.setCursorPos, Editor.replaceRange, Editor.getCursorPos,
      Editor.hasSelection, Editor.getEndingCursorPos.
    cbn [Editor.text Editor.anchor Editor.head Editor.history].
    rewrite offsetOf_origin, offsetOf_end.
    rewrite Nat.min_0_l, Nat.max_0_l, splice_whole.
    split; [done |]. split; [by destruct (Editor.head editor) |].
    split; [| done].
    apply bool_decide_eq_false_2. by intros [].
Qed.

(** ** The provider loop *)

Section Loop.

Implicit Types (editor : Editor.t) (items : list Item).

(** The loop over a concatenation: the second half is tried only when the
    first half ran out. *)
Lemma tryProviders_app editor items1 items2 :
  tryProviders editor (items1 ++ items2) =
  match tryProviders editor items1 with
  | (Rejected _, evs1) =>
      let '(p, evs2) := tryProviders editor items2 in (p, evs1 ++ evs2)
  | r => r
  end.
Proof.
  induction items1 as [|item items1 IH]; simpl.
  - by destruct (tryProviders editor items2).
  - destruct (beautify (provider item)) as [f|].
    + destruct (f editor) as [[|t r]| |]; try done;
        rewrite IH; destruct (tryProviders editor items1) as [[v|e|] evs1];
        try done; by destruct (tryProviders editor items2).
    + rewrite IH. destruct (tryProviders editor items1) as [[v|e|] evs1];
        try done. by destruct (tryProviders editor items2).
Qed.

(** Providers that all reject are all called, in order, and the loop throws. *)
Lemma tryProviders_rejecting editor items :
  Forall (λ item, answer item editor = Some Rejects) items →
  tryProviders editor items
  = (Rejected "No Providers beautified text", map (called editor) items).
Proof.
  induction 1 as [|item items Hitem _ IH]; simpl; [done |].
  unfold answer in Hitem.
  destruct (beautify (provider item)) as [f|]; simpl in Hitem; [| done].
  injection Hitem as ->. by rewrite IH.
Qed.

(** The loop never hands back a falsy value: such a resolution sends it on
    to the next provider. *)
Lemma tryProviders_not_null editor items :
  fst (tryProviders editor items) ≠ Fulfilled Null.
Proof.
  induction items as [|item items IH]; simpl; [done |].
  destruct (beautify (provider item)) as [f|].
  - destruct (f editor) as [[|t r]| |]; simpl; try done;
      by destruct (tryProviders editor items).
  - by destruct (tryProviders editor items).
Qed.


End Loop.

(** ** [_prettify] *)

Section Prettify.

Context (host : Host).
Implicit Types (st : State) (editor : Editor.t).

Lemma log_emit evs st : log (emit evs st) = log st ++ evs.
Proof. done. Qed.

(** Everything [_prettify] logs for the active editor. *)
Lemma prettify_log st editor :
  activeEditor st = Some editor →
  log (_prettify host st)
  = log st ++ SetProjectBusy true (busyMessageOf host editor)
           :: snd (_getBeautifiedCodeDetails host editor)
           ++ settledEvents host editor (fst (_getBeautifiedCodeDetails host editor)).
Proof.
  intros Hed. unfold _prettify. rewrite Hed.
  destruct (_getBeautifiedCodeDetails host editor) as [p evs]; simpl.
  fold (busyMessageOf host editor).
  destruct p as [[|[t|] r]|e|]; simpl; rewrite <- ?app_assoc; simpl;
    rewrite ?app_nil_r; try done.
  case_bool_decide; simpl; rewrite <- ?app_assoc; simpl; by rewrite ?app_nil_r.
Qed.

(** The editor after [_prettify]: touched only by a usable result. *)
Lemma prettify_editor st editor :
  activeEditor st = Some editor →
  activeEditor (_prettify host st)
  = match fst (_getBeautifiedCodeDetails host editor) with
    | Fulfilled (Details (Some changed) rg) =>
        if bool_decide (changed = "") then Some editor
        else Some (_replaceText editor (mkBeautyObject changed rg))
    | _ => Some editor
    end.
Proof.
  intros Hed. unfold _prettify. rewrite Hed.
  destruct (_getBeautifiedCodeDetails host editor) as [p evs]; simpl.
  destruct p as [[|[t|] r]|e|]; simpl; try done.
  by case_bool_decide.
Qed.

End Prettify.

(** ** Counting events *)

Section Counting.

Implicit Types (p : Event → bool) (evs : list Event).

Lemma count_nil p : count p [] = 0.
Proof. done. Qed.

Lemma count_cons p ev evs :
  count p (ev :: evs) = (if p ev then 1 else 0) + count p evs.
Proof.
  unfold count. destruct (p ev) eqn:Hp.
  - by rewrite filter_cons_True.
  - rewrite filter_cons_False; [done | by rewrite Hp].
Qed.

Lemma count_app p evs1 evs2 : count p (evs1 ++ evs2) = count p evs1 + count p evs2.
Proof. unfold count. by rewrite filter_app, length_app. Qed.

Lemma count_called editor items :
  count isBeautifyCalled (map (called editor) items) = length items
  ∧ count isConsoleError (map (called editor) items) = 0
  ∧ count isDisplayErrorMessage (map (called editor) items) = 0.
Proof.
  induction items as [|i items (IH1 & IH2 & IH3)]; [done |].
  cbn [map]. rewrite !count_cons, IH1, IH2, IH3. by simpl.
Qed.

End Counting.

(** The loop logs nothing but diagnostics and calls. *)
Lemma tryProviders_count_other (p : Event → bool) (editor : Editor.t) (items : list Item) :
  (∀ n, p (ConsoleError n) = false) →
  (∀ n seen, p (BeautifyCalled n seen) = false) →
  count p (snd (tryProviders editor items)) = 0.
Proof.
  intros Herr Hcall.
  induction items as [|item items IH]; simpl; [done |].
  destruct (beautify (provider item)) as [f|].
  - destruct (f editor) as [[|t r]| |]; simpl;
      try (by rewrite count_cons, Hcall);
      destruct (tryProviders editor items) as [q evs]; simpl in *;
      by rewrite count_cons, Hcall, IH.
  - destruct (tryProviders editor items) as [q evs]; simpl in *.
    by rewrite count_cons, Herr, IH.
Qed.

(** The loop shows the user nothing. *)
Lemma tryProviders_no_display (editor : Editor.t) (items : list Item) :
  count isDisplayErrorMessage (snd (tryProviders editor items)) = 0.
Proof. by apply tryProviders_count_other. Qed.

(** A provider that resolves with [null] sends the loop on to the next
    provider, as one that rejects does. *)
Lemma tryProviders_null_continues (editor : Editor.t) (item : Item) (rest : list Item) :
  answer item editor = Some (Resolves Null) →
  tryProviders editor (item :: rest)
  = (fst (tryProviders editor rest), called editor item :: snd (tryProviders editor rest)).
Proof.
  unfold answer. simpl.
  destruct (beautify (provider item)) as [f|]; simpl; [| done].
  intros [= ->]. by destruct (tryProviders editor rest).
Qed.

(** One message is shown when the promise rejects, none otherwise. *)
Lemma count_display_settled (host : Host) (editor : Editor.t) (p : Promise Resolution) :
  count isDisplayErrorMessage (settledEvents host editor p)
  = match p with Rejected _ => 1 | _ => 0 end.
Proof.
  destruct p as [[|[t|] r]|e|]; simpl; try done.
  by case_bool_decide.
Qed.

(** ** Trying the providers in order *)

(** C3.  When every provider rejects, the editor is left exactly as it was,
    and after the calls, made in order, the user is shown one message at the
    cursor, the one for a selection when the editor has a selection and the
    one for the whole document otherwise; the busy signal is then cleared. *)
Theorem all_reject_reports_exhaustion (host : Host) (st : State) (editor : Editor.t) :
  activeEditor st = Some editor →
  Forall (λ item, answer item editor = Some Rejects) (_getEnabledProviders host editor) →
  let st' := _prettify host st in
  let new := drop (length (log st)) (log st') in
  activeEditor st' = Some editor ∧
  new = SetProjectBusy true (busyMessageOf host editor)
          :: map (called editor) (_getEnabledProviders host editor)
          ++ [DisplayErrorMessageAtCursor
                (if Editor.hasSelection editor
                 then BEAUTIFY_ERROR_SELECTION host else BEAUTIFY_ERROR host);
              SetProjectBusy false (busyMessageOf host editor);
              ConsoleLog "No beautify providers responded"].
Proof.
  intros Hed Hall st' new.
  assert (Hdetails : _getBeautifiedCodeDetails host editor
                     = (Rejected "No Providers beautified text",
                        map (called editor) (_getEnabledProviders host editor))).
  { unfold _getBeautifiedCodeDetails. by apply tryProviders_rejecting. }
  split.
  - subst st'. by rewrite (prettify_editor host st editor Hed), Hdetails.
  - subst new st'. rewrite (prettify_log host st editor Hed), Hdetails. simpl.
    by rewrite drop_app_length.
Qed.

(** C9.  An entry whose provider has no [beautify] does not change how the
    promise of [_getBeautifiedCodeDetails] settles: it settles as it does
    when the entry is not registered.  When the loop gets to the entry (the
    entries ahead of it ran out), it logs the diagnostic for it and goes on
    with the entries behind it exactly as it does from there without it.
    [_prettify] then leaves the same editor and shows the user as many
    messages as it does without the entry. *)
Theorem malformed_entry_skipped (host host' : Host) (st : State) (editor : Editor.t)
    (pre : list Item) (bad : Item) (post : list Item) :
  activeEditor st = Some editor →
  _getEnabledProviders host editor = pre ++ bad :: post →
  _getEnabledProviders host' editor = pre ++ post →
  beautify (provider bad) = None →
  fst (_getBeautifiedCodeDetails host editor)
    = fst (_getBeautifiedCodeDetails host' editor) ∧
  (∀ reason, fst (tryProviders editor pre) = Rejected reason →
     snd (_getBeautifiedCodeDetails host editor)
     = snd (tryProviders editor pre)
       ++ ConsoleError (providerName (provider bad))
       :: snd (tryProviders editor post)) ∧
  activeEditor (_prettify host st) = activeEditor (_prettify host' st) ∧
  count isDisplayErrorMessage (drop (length (log st)) (log (_prettify host st)))
    = count isDisplayErrorMessage (drop (length (log st)) (log (_prettify host' st))).
Proof.
  intros Hed Hitems Hitems' Hbad.
  assert (Hfst : fst (_getBeautifiedCodeDetails host editor)
                 = fst (_getBeautifiedCodeDetails host' editor)).
  { unfold _getBeautifiedCodeDetails. rewrite Hitems, Hitems', !tryProviders_app.
    simpl. rewrite Hbad.
    destruct (tryProviders editor pre) as [[v|e|] evs1]; try done.
    by destruct (tryProviders editor post). }
  split; [done |]. split.
  { intros reason Hpre. unfold _getBeautifiedCodeDetails.
    rewrite Hitems, tryProviders_app. simpl. rewrite Hbad.
    destruct (tryProviders editor pre) as [p evs1]; simpl in Hpre; subst p.
    by destruct (tryProviders editor post). }
  split.
  { by rewrite !(prettify_editor _ st editor Hed), Hfst. }
  rewrite !(prettify_log _ st editor Hed), !drop_app_length.
  rewrite !count_cons, !count_app. simpl.
  unfold _getBeautifiedCodeDetails at 1 3.
  rewrite !tryProviders_no_display, Hfst.
  by rewrite !(count_display_settled _ editor).
Qed.

(** ** Beautify on save *)

Section OnSave.

Context (host : Host).
Implicit Types (st : State) (editor : Editor.t) (doc : Document).

Lemma clearSelection_no_selection editor :
  Editor.hasSelection (Editor.clearSelection editor) = false.
Proof.
  unfold Editor.hasSelection, Editor.clearSelection, Editor.setCursorPos. simpl.
  apply bool_decide_eq_false_2. by intros [].
Qed.

(** What [_prettifyOnSave] does when the preference is on and the saved
    document is the one of the active editor. *)
Lemma prettifyOnSave_active doc st editor :
  activeEditor st = Some editor →
  _isBeautifyOnSaveEnabled st = true →
  Editor.fullPath editor = docFullPath doc →
  _prettifyOnSave host doc st
  = _prettify host (withEditor (Editor.clearSelection editor) st).
Proof.
  intros Hed Hon Hpath. unfold _prettifyOnSave. rewrite Hon, Hed. simpl.
  rewrite bool_decide_eq_false_2; [done | by intros []].
Qed.


End OnSave.



(** ** The "beautify on save" preference *)

Section Toggle.

Implicit Types st : State.

Lemma templateOfBool_enabled (b : bool) :
  bool_decide (Some (templateOfBool b) = Some "true") = b.
Proof. by destruct b. Qed.

(** One toggle stores the literal of the flipped preference and checks the
    command accordingly. *)
Lemma toggle_once st :
  let st1 := _toggleBeautifyOnSave st in
  _isBeautifyOnSaveEnabled st1 = negb (_isBeautifyOnSaveEnabled st)
  ∧ storedBeautifyOnSave st1 = Some (templateOfBool (negb (_isBeautifyOnSaveEnabled st)))
  ∧ beautifyOnSaveChecked st1 = negb (_isBeautifyOnSaveEnabled st).
Proof.
  unfold _toggleBeautifyOnSave, storedBeautifyOnSave, _isBeautifyOnSaveEnabled at 1.
  simpl. rewrite lookup_insert_eq. by rewrite templateOfBool_enabled.
Qed.

Lemma stored_literal_enabled st :
  storedBeautifyOnSave st = Some "true" ∨ storedBeautifyOnSave st = Some "false" →
  storedBeautifyOnSave st = Some (templateOfBool (_isBeautifyOnSaveEnabled st)).
Proof.
  unfold storedBeautifyOnSave, _isBeautifyOnSaveEnabled.
  by intros [-> | ->].
Qed.

End Toggle.

(** C8, as the code has it.  Two toggles bring back whether the preference
    reads as enabled and leave the literal of that boolean stored and the
    command checked accordingly.  When the stored value was one of the
    literals ["true"] and ["false"], [localStorage] is what it was before the
    first toggle; when the checkmark showed the preference, as it does from
    start-up on, the checkmark is what it was too.  Nothing else changes. *)
Theorem toggle_twice (st : State) :
  let st2 := _toggleBeautifyOnSave (_toggleBeautifyOnSave st) in
  (_isBeautifyOnSaveEnabled st2 = _isBeautifyOnSaveEnabled st ∧
   storedBeautifyOnSave st2 = Some (templateOfBool (_isBeautifyOnSaveEnabled st)) ∧
   beautifyOnSaveChecked st2 = _isBeautifyOnSaveEnabled st ∧
   activeEditor st2 = activeEditor st ∧ log st2 = log st) ∧
  (storedBeautifyOnSave st = Some "true" ∨ storedBeautifyOnSave st = Some "false" →
   localStorage st2 = localStorage st) ∧
  (beautifyOnSaveChecked st = _isBeautifyOnSaveEnabled st →
   beautifyOnSaveChecked st2 = beautifyOnSaveChecked st) ∧
  (storedBeautifyOnSave st = Some "true" ∨ storedBeautifyOnSave st = Some "false" →
   beautifyOnSaveChecked st = _isBeautifyOnSaveEnabled st →
   st2 = st).
Proof.
  intros st2.
  destruct (toggle_once st) as (Hon1 & Hst1 & Hch1).
  destruct (toggle_once (_toggleBeautifyOnSave st)) as (Hon2 & Hst2 & Hch2).
  fold st2 in Hon2, Hst2, Hch2.
  rewrite Hon1, negb_involutive in Hon2, Hst2, Hch2.
  assert (Hstore : storedBeautifyOnSave st = Some "true"
                   ∨ storedBeautifyOnSave st = Some "false" →
                   localStorage st2 = localStorage st).
  { intros Hlit%stored_literal_enabled.
    subst st2. unfold _toggleBeautifyOnSave at 1. cbn [localStorage].
    rewrite Hon1, negb_involutive.
    unfold _toggleBeautifyOnSave. cbn [localStorage].
    rewrite insert_insert_eq. by apply insert_id. }
  split; [by repeat split |].
  split; [done |].
  split; [intros Hsync; by rewrite Hch2 |].
  intros Hlit Hsync. specialize (Hstore Hlit).
  destruct st as [ed ls chk lg]. destruct st2 as [ed2 ls2 chk2 lg2] eqn:Heq.
  simpl in *.
  assert (ed2 = ed ∧ lg2 = lg) as [-> ->].
  { unfold st2, _toggleBeautifyOnSave in Heq. simpl in Heq.
    by injection Heq as <- _ _ <-. }
  by rewrite Hstore, Hch2, Hsync.
Qed.

(** ** The busy signal *)

(** How often [_prettify] raises and clears the busy signal, by the way the
    promise of [_getBeautifiedCodeDetails] comes out: it is raised once, and
    cleared once when a result was applied or the promise rejected, and not
    at all when the promise is fulfilled with an object whose [changedText]
    is missing or empty, or stays pending. *)
Lemma prettify_busy_calls (host : Host) (st : State) (editor : Editor.t) :
  activeEditor st = Some editor →
  let new := drop (length (log st)) (log (_prettify host st)) in
  count (isSetProjectBusy true) new = 1 ∧
  count (isSetProjectBusy false) new
  = match fst (_getBeautifiedCodeDetails host editor) with
    | Fulfilled (Details (Some changed) _) => if bool_decide (changed = "") then 0 else 1
    | Rejected _ => 1
    | _ => 0
    end.
Proof.
  intros Hed new. subst new.
  rewrite (prettify_log host st editor Hed), drop_app_length.
  rewrite !count_cons, !count_app. simpl.
  unfold _getBeautifiedCodeDetails at 1 3.
  rewrite !tryProviders_count_other by done.
  destruct (fst (_getBeautifiedCodeDetails host editor)) as [[|[t|] r]|e|];
    simpl; try done.
  by case_bool_decide.
Qed.

(** C4, at a provider that resolves with [{changedText: ""}]: the promise
    is fulfilled, [_prettify] returns from its handler before the call that
    clears the busy signal, and the signal raised at the start stays raised. *)
Example busy_stays_raised_on_empty_changedText :
  let host := Sample.hostWith [Sample.resolvesText "A" ""] in
  let st' := _prettify host (Sample.state None false) in
  fst (_getBeautifiedCodeDetails host Sample.editor) = Fulfilled (Details (Some "") None) ∧
  log st' = [SetProjectBusy true "Beautifying main.js"; BeautifyCalled "A" Sample.editor] ∧
  activeEditor st' = Some Sample.editor ∧
  count (isSetProjectBusy true) (log st') = 1 ∧
  count (isSetProjectBusy false) (log st') = 0.
Proof. vm_compute. by repeat split. Qed.

(** ** A provider that resolves with [null] *)

(** C1, at provider lists that start with a provider resolving with
    [null]: the loop goes on to the next provider and its text is put into
    the editor; and when no provider is left the user is shown the failure
    message. *)
Example null_resolution_does_not_stop_the_loop :
  let st := Sample.state None false in
  let host := Sample.hostWith [Sample.resolvesNull "A"; Sample.resolvesText "B" "X"] in
  let host' := Sample.hostWith [Sample.resolvesNull "A"] in
  (log (_prettify host st)
   = [SetProjectBusy true "Beautifying main.js";
      BeautifyCalled "A" Sample.editor;
      BeautifyCalled "B" Sample.editor;
      SetProjectBusy false "Beautifying main.js";
      ConsoleLog "Beautified"]
   ∧ Editor.text <$> activeEditor (_prettify host st) = Some "X")
  ∧ log (_prettify host' st)
    = [SetProjectBusy true "Beautifying main.js";
       BeautifyCalled "A" Sample.editor;
       DisplayErrorMessageAtCursor "Could not beautify selection";
       SetProjectBusy false "Beautifying main.js";
       ConsoleLog "No beautify providers responded"].
Proof. vm_compute. by repeat split. Qed.

(** ** Instances *)

(** C8 as stated fails where nothing is stored yet: the command is
    unchecked, in step with the preference, and after two toggles the stored
    value is ["false"], not nothing. *)
Lemma toggle_twice_from_unset_stores_false :
  let st := Sample.state None false in
  let st2 := _toggleBeautifyOnSave (_toggleBeautifyOnSave st) in
  storedBeautifyOnSave st = None ∧
  beautifyOnSaveChecked st = _isBeautifyOnSaveEnabled st ∧
  storedBeautifyOnSave st2 = Some "false" ∧
  storedBeautifyOnSave st2 ≠ storedBeautifyOnSave st.
Proof. vm_compute. by repeat split. Qed.

(** A ranged result on the sample editor: the first line is reformatted,
    the second is as it was. *)
Lemma replaceText_ranges_witness :
  let rg := mkRanges (mkPos 0 0) (mkPos 0 9) in
  (offsetOf (Editor.text Sample.editor) (replaceStart rg)
   ≤ offsetOf (Editor.text Sample.editor) (replaceEnd rg))%nat ∧
  Editor.text (_replaceText Sample.editor (mkBeautyObject "let x = 1;" (Some rg)))
  = "let x = 1;
let y = 2;".
Proof.
  intros rg.
  assert (Hle : (offsetOf (Editor.text Sample.editor) (replaceStart rg)
                 ≤ offsetOf (Editor.text Sample.editor) (replaceEnd rg))%nat)
    by (vm_compute; lia).
  split; [exact Hle |].
  destruct (replaceText_ranges Sample.editor "let x = 1;" rg Hle) as (_ & _ & Hreplace).
  destruct Hreplace as (Htext & _); [by vm_compute |].
  rewrite Htext. reflexivity.
Defined.

(** A whole-document result on the sample editor, whose cursor is at line 0,
    column 5. *)
Lemma replaceText_whole_document_witness :
  Editor.text Sample.editor ≠ "X" ∧
  Editor.text (_replaceText Sample.editor (mkBeautyObject "X" None)) = "X" ∧
  Editor.getCursorPos (_replaceText Sample.editor (mkBeautyObject "X" None)) = mkPos 0 5.
Proof.
  assert (Hne : Editor.text Sample.editor ≠ "X") by (by vm_compute).
  split; [exact Hne |].
  destruct (replaceText_whole_document Sample.editor "X") as (_ & _ & Hreplace).
  destruct (Hreplace Hne) as (Htext & Hcursor & _).
  split; [exact Htext | exact Hcursor].
Defined.

(** A and B both decline. *)
Lemma all_reject_reports_exhaustion_witness :
  let host := Sample.hostWith [Sample.declines "A"; Sample.declines "B"] in
  let st := Sample.state None false in
  activeEditor (_prettify host st) = Some Sample.editor ∧
  DisplayErrorMessageAtCursor "Could not beautify selection" ∈ log (_prettify host st).
Proof.
  intros host st.
  destruct (all_reject_reports_exhaustion host st Sample.editor) as (Hed & Hnew).
  - reflexivity.
  - repeat constructor.
  - split; [exact Hed |].
    rewrite <- (take_drop (length (log st)) (log (_prettify host st))), Hnew.
    vm_compute. do 3 right. left.
Defined.

(** A malformed entry between a provider that declines and one that
    resolves with text. *)
Lemma malformed_entry_skipped_witness :
  let host := Sample.hostWith
                [Sample.declines "A"; Sample.malformed "M"; Sample.resolvesText "B" "X"] in
  let host' := Sample.hostWith [Sample.declines "A"; Sample.resolvesText "B" "X"] in
  let st := Sample.state None false in
  fst (_getBeautifiedCodeDetails host Sample.editor) = Fulfilled (Details (Some "X") None) ∧
  ConsoleError "M" ∈ snd (_getBeautifiedCodeDetails host Sample.editor) ∧
  activeEditor (_prettify host st) = activeEditor (_prettify host' st).
Proof.
  intros host host' st.
  destruct (malformed_entry_skipped host host' st Sample.editor
              [Sample.declines "A"] (Sample.malformed "M") [Sample.resolvesText "B" "X"])
    as (Hfst & Hsnd & Hed & _).
  - reflexivity.
  - reflexivity.
  - reflexivity.
  - reflexivity.
  - split; [by rewrite Hfst |]. split; [| exact Hed].
    rewrite (Hsnd "No Providers beautified text") by reflexivity.
    vm_compute. right. left.
Defined.



(** Two toggles from a stored ["true"] with the command checked. *)
Lemma toggle_twice_witness :
  let st := Sample.state (Some "true") true in
  storedBeautifyOnSave st = Some "true" ∧
  beautifyOnSaveChecked st = _isBeautifyOnSaveEnabled st ∧
  _toggleBeautifyOnSave (_toggleBeautifyOnSave st) = st.
Proof.
  intros st.
  split; [reflexivity |]. split; [reflexivity |].
  destruct (toggle_twice st) as (_ & _ & _ & Hback).
  apply Hback; [by left | reflexivity].
Defined.

(** ** More on the provider loop *)

Section LoopMore.

Implicit Types (editor : Editor.t) (items : list Item) (item : Item).

Lemma eventOf_some editor item f :
  beautify (provider item) = Some f → eventOf editor item = called editor item.
Proof. unfold eventOf. by intros ->. Qed.

Lemma eventOf_none editor item :
  beautify (provider item) = None →
  eventOf editor item = ConsoleError (providerName (provider item)).
Proof. unfold eventOf. by intros ->. Qed.

(** Items that all let the loop continue are all handled, and the loop
    throws. *)
Lemma tryProviders_continuing editor items :
  Forall (λ item, letsLoopContinue editor item = true) items →
  tryProviders editor items
  = (Rejected "No Providers beautified text", map (eventOf editor) items).
Proof.
  induction 1 as [|item items Hitem _ IH]; simpl; [done |].
  unfold letsLoopContinue, answer in Hitem. unfold eventOf at 1.
  destruct (beautify (provider item)) as [f|]; simpl in Hitem.
  - destruct (f editor) as [[|t r]| |]; try done; by rewrite IH.
  - by rewrite IH.
Qed.

(** The loop throws only when every item let it continue. *)
Lemma tryProviders_rejected editor items reason :
  fst (tryProviders editor items) = Rejected reason →
  reason = "No Providers beautified text"
  ∧ Forall (λ item, letsLoopContinue editor item = true) items.
Proof.
  induction items as [|item items IH]; simpl.
  - intros [= <-]. by split.
  - destruct (beautify (provider item)) as [f|] eqn:Hf.
    + destruct (f editor) as [[|t r]| |] eqn:Hans; simpl; try done;
        destruct (tryProviders editor items) as [p evs]; simpl in *;
        intros Hp; destruct (IH Hp) as [-> Hall]; (split; [done |]);
        constructor; try done;
        unfold letsLoopContinue, answer; rewrite Hf; simpl; by rewrite Hans.
    + destruct (tryProviders editor items) as [p evs]; simpl in *.
      intros Hp; destruct (IH Hp) as [-> Hall]. split; [done |].
      constructor; [| done].
      unfold letsLoopContinue, answer. by rewrite Hf.
Qed.

(** What the loop logs is what it logs per item, for the items of a prefix
    of the list; the prefix is the whole list when the loop throws. *)
Lemma tryProviders_log_prefix editor items :
  ∃ k, k ≤ length items
       ∧ snd (tryProviders editor items) = map (eventOf editor) (take k items)
       ∧ (∀ reason, fst (tryProviders editor items) = Rejected reason → k = length items).
Proof.
  induction items as [|item items (k & Hk & Hlog & Hrej)]; simpl.
  - exists 0. by repeat split.
  - destruct (beautify (provider item)) as [f|] eqn:Hf.
    + pose proof (eventOf_some editor item f Hf) as He. unfold called in He.
      destruct (f editor) as [[|t r]| |]; simpl; rewrite <- He.
      * destruct (tryProviders editor items) as [p evs]; simpl in *.
        exists (S k). split; [lia |]. split; [by rewrite Hlog |].
        intros reason Hp. by rewrite (Hrej reason Hp).
      * exists 1. split; [lia |]. by split.
      * destruct (tryProviders editor items) as [p evs]; simpl in *.
        exists (S k). split; [lia |]. split; [by rewrite Hlog |].
        intros reason Hp. by rewrite (Hrej reason Hp).
      * exists 1. split; [lia |]. by split.
    + rewrite <- (eventOf_none editor item Hf).
      destruct (tryProviders editor items) as [p evs]; simpl in *.
      exists (S k). split; [lia |]. split; [by rewrite Hlog |].
      intros reason Hp. by rewrite (Hrej reason Hp).
Qed.

(** A fulfilled or pending promise goes back to an item of the list. *)
Lemma tryProviders_provenance editor items :
  match fst (tryProviders editor items) with
  | Fulfilled v =>
      v ≠ Null ∧ ∃ item, item ∈ items ∧ answer item editor = Some (Resolves v)
  | Pending => ∃ item, item ∈ items ∧ answer item editor = Some NeverSettles
  | Rejected _ => True
  end.
Proof.
  induction items as [|item items IH]; simpl; [done |].
  unfold answer in *.
  destruct (beautify (provider item)) as [f|] eqn:Hf.
  - destruct (f editor) as [[|t r]| |] eqn:Hans; simpl.
    + destruct (tryProviders editor items) as [[v|e|] evs]; simpl in *; [| done |].
      * destruct IH as (Hv & it & Hin & Hit). split; [done |].
        exists it. split; [by right | done].
      * destruct IH as (it & Hin & Hit). exists it. split; [by right | done].
    + split; [done |]. exists item. split; [by left |]. by rewrite Hf; simpl; rewrite Hans.
    + destruct (tryProviders editor items) as [[v|e|] evs]; simpl in *; [| done |].
      * destruct IH as (Hv & it & Hin & Hit). split; [done |].
        exists it. split; [by right | done].
      * destruct IH as (it & Hin & Hit). exists it. split; [by right | done].
    + exists item. split; [by left |]. by rewrite Hf; simpl; rewrite Hans.
  - destruct (tryProviders editor items) as [[v|e|] evs]; simpl in *; [| done |].
    + destruct IH as (Hv & it & Hin & Hit). split; [done |].
      exists it. split; [by right | done].
    + destruct IH as (it & Hin & Hit). exists it. split; [by right | done].
Qed.

Lemma count_eventOf_other (p : Event → bool) editor items :
  (∀ n, p (ConsoleError n) = false) →
  (∀ n seen, p (BeautifyCalled n seen) = false) →
  count p (map (eventOf editor) items) = 0.
Proof.
  intros Herr Hcall. induction items as [|item items IH]; [done |].
  cbn [map]. rewrite count_cons, IH. unfold eventOf, called.
  destruct (beautify (provider item)); by rewrite ?Herr, ?Hcall.
Qed.

End LoopMore.

(** X1.  The promise of [_getBeautifiedCodeDetails] is rejected exactly when
    every registered item lets the loop continue (no [beautify], a
    rejection, or a falsy resolution), an empty list included; the reason is
    always the same error. *)
Theorem details_rejected_iff_nobody_answers (host : Host) (editor : Editor.t) :
  ((∃ reason, fst (_getBeautifiedCodeDetails host editor) = Rejected reason)
   ↔ Forall (λ item, letsLoopContinue editor item = true)
            (_getEnabledProviders host editor))
  ∧ (∀ reason, fst (_getBeautifiedCodeDetails host editor) = Rejected reason →
       reason = "No Providers beautified text").
Proof.
  unfold _getBeautifiedCodeDetails. split; [split |].
  - intros [reason Hp]. by apply (tryProviders_rejected _ _ reason).
  - intros Hall. rewrite (tryProviders_continuing _ _ Hall). by eexists.
  - intros reason Hp. by apply (tryProviders_rejected _ _ _ Hp).
Qed.

(** X2.  When the promise is fulfilled, its value is an object, never a
    falsy value, and it is what a registered provider resolved with for this
    editor; when it stays pending, a registered provider's promise never
    settles. *)
Theorem details_come_from_a_provider (host : Host) (editor : Editor.t) :
  match fst (_getBeautifiedCodeDetails host editor) with
  | Fulfilled v =>
      v ≠ Null ∧ ∃ item, item ∈ _getEnabledProviders host editor
                         ∧ answer item editor = Some (Resolves v)
  | Pending => ∃ item, item ∈ _getEnabledProviders host editor
                       ∧ answer item editor = Some NeverSettles
  | Rejected _ => True
  end.
Proof. apply tryProviders_provenance. Qed.

(** X3.  The loop handles the items in the order of the registry, each at
    most once: what it logs is the diagnostic or the call of each item of a
    prefix of the list, and of the whole list when the promise is
    rejected. *)
Theorem details_log_follows_registry (host : Host) (editor : Editor.t) :
  let items := _getEnabledProviders host editor in
  ∃ k, k ≤ length items
       ∧ snd (_getBeautifiedCodeDetails host editor)
         = map (eventOf editor) (take k items)
       ∧ (∀ reason, fst (_getBeautifiedCodeDetails host editor) = Rejected reason →
            k = length items).
Proof. apply tryProviders_log_prefix. Qed.

(** X4.  The first item that does not let the loop continue decides: when
    the items ahead of [b] are malformed, reject or resolve with a falsy
    value, and [b] resolves with an object, the promise is fulfilled with
    that object after the items up to [b] were handled, whatever is
    registered behind [b]. *)
Theorem first_object_decides (host : Host) (editor : Editor.t)
    (pre : list Item) (b : Item) (post : list Item)
    (t : option string) (r : option Ranges) :
  _getEnabledProviders host editor = pre ++ b :: post →
  Forall (λ item, letsLoopContinue editor item = true) pre →
  answer b editor = Some (Resolves (Details t r)) →
  _getBeautifiedCodeDetails host editor
  = (Fulfilled (Details t r), map (eventOf editor) (pre ++ [b])).
Proof.
  intros Hitems Hpre Hb. unfold _getBeautifiedCodeDetails.
  rewrite Hitems, tryProviders_app, (tryProviders_continuing _ _ Hpre).
  rewrite map_app. cbn [map tryProviders]. unfold answer in Hb.
  destruct (beautify (provider b)) as [f|] eqn:Hf; simpl in Hb; [| done].
  rewrite (eventOf_some editor b f Hf).
  injection Hb as ->. done.
Qed.

(** X5.  A provider whose promise never settles, reached after items that
    let the loop continue, leaves [_prettify] hanging: the busy signal is
    raised and not cleared, nothing is shown, the editor is untouched and no
    item behind it is handled. *)
Theorem never_settling_provider_hangs (host : Host) (st : State) (editor : Editor.t)
    (pre : list Item) (b : Item) (post : list Item) :
  activeEditor st = Some editor →
  _getEnabledProviders host editor = pre ++ b :: post →
  Forall (λ item, letsLoopContinue editor item = true) pre →
  answer b editor = Some NeverSettles →
  let st' := _prettify host st in
  let new := drop (length (log st)) (log st') in
  activeEditor st' = Some editor ∧
  new = SetProjectBusy true (busyMessageOf host editor)
          :: map (eventOf editor) (pre ++ [b]) ∧
  count (isSetProjectBusy false) new = 0 ∧
  count isDisplayErrorMessage new = 0.
Proof.
  intros Hed Hitems Hpre Hb st' new.
  assert (Hdetails : _getBeautifiedCodeDetails host editor
                     = (Pending, map (eventOf editor) (pre ++ [b]))).
  { unfold _getBeautifiedCodeDetails.
    rewrite Hitems, tryProviders_app, (tryProviders_continuing _ _ Hpre).
    rewrite map_app. cbn [map tryProviders]. unfold answer in Hb.
    destruct (beautify (provider b)) as [f|] eqn:Hf; simpl in Hb; [| done].
    rewrite (eventOf_some editor b f Hf).
    injection Hb as ->. done. }
  assert (Hnew : new = SetProjectBusy true (busyMessageOf host editor)
                         :: map (eventOf editor) (pre ++ [b])).
  { subst new st'. rewrite (prettify_log host st editor Hed), Hdetails. simpl.
    by rewrite drop_app_length, app_nil_r. }
  split.
  { subst st'. by rewrite (prettify_editor host st editor Hed), Hdetails. }
  split; [done |].
  rewrite Hnew, !count_cons, !count_eventOf_other by done. by split.
Qed.

(** ** More on [_prettify] *)

Section Frame.

Context (host : Host).
Implicit Types (st : State) (editor : Editor.t).

Lemma replaceText_file editor obj :
  Editor.fullPath (_replaceText editor obj) = Editor.fullPath editor
  ∧ Editor.name (_replaceText editor obj) = Editor.name editor.
Proof.
  unfold _replaceText. destruct (ranges obj) as [rg|]; by case_bool_decide.
Qed.

Lemma prettify_storage st :
  localStorage (_prettify host st) = localStorage st
  ∧ beautifyOnSaveChecked (_prettify host st) = beautifyOnSaveChecked st.
Proof.
  unfold _prettify. destruct (activeEditor st) as [editor|]; [| done].
  destruct (_getBeautifiedCodeDetails host editor) as [[[|[t|] r]|e|] evs];
    unfold onDetails, onFailure; simpl; try done.
  by case_bool_decide.
Qed.

Lemma prettify_file st :
  Editor.fullPath <$> activeEditor (_prettify host st) = Editor.fullPath <$> activeEditor st
  ∧ Editor.name <$> activeEditor (_prettify host st) = Editor.name <$> activeEditor st.
Proof.
  destruct (activeEditor st) as [editor|] eqn:Hed.
  - rewrite (prettify_editor host st editor Hed).
    destruct (fst (_getBeautifiedCodeDetails host editor)) as [[|[t|] r]|e|];
      try done.
    case_bool_decide; [done |].
    destruct (replaceText_file editor (mkBeautyObject t r)) as [Hpath Hname].
    split; cbn [fmap option_fmap option_map]; f_equal; done.
  - unfold _prettify. rewrite Hed. by rewrite Hed.
Qed.

Lemma prettifyOnSave_storage doc st :
  localStorage (_prettifyOnSave host doc st) = localStorage st
  ∧ beautifyOnSaveChecked (_prettifyOnSave host doc st) = beautifyOnSaveChecked st.
Proof.
  unfold _prettifyOnSave.
  destruct (_isBeautifyOnSaveEnabled st); simpl; [| done].
  destruct (activeEditor st) as [editor|] eqn:Hed; [| done].
  case_bool_decide; [done |].
  by destruct (prettify_storage (withEditor (Editor.clearSelection editor) st))
    as [-> ->].
Qed.

Lemma prettifyOnSave_file doc st :
  Editor.fullPath <$> activeEditor (_prettifyOnSave host doc st)
  = Editor.fullPath <$> activeEditor st.
Proof.
  unfold _prettifyOnSave.
  destruct (_isBeautifyOnSaveEnabled st); simpl; [| done].
  destruct (activeEditor st) as [editor|] eqn:Hed; [| by rewrite Hed].
  case_bool_decide; [by rewrite Hed |].
  by destruct (prettify_file (withEditor (Editor.clearSelection editor) st)) as [-> _].
Qed.

(** Whether the command is enabled for an editor depends on the path of its
    document only. *)
Lemma onActiveEditorChange_by_path (current current' : option Editor.t) :
  Editor.fullPath <$> current = Editor.fullPath <$> current' →
  _onActiveEditorChange host current = _onActiveEditorChange host current'.
Proof.
  destruct current as [e|], current' as [e'|]; simpl; try done.
  intros [= Hpath]. unfold _getEnabledProviders. by rewrite Hpath.
Qed.

End Frame.

(** X6.  [_prettify] on an active editor raises the busy signal exactly
    once; it clears it exactly once when a result with a non-empty
    [changedText] was applied or the promise was rejected, and not at all
    when the promise is fulfilled with an object whose [changedText] is
    missing or empty or when it stays pending. *)
Theorem prettify_busy_signal (host : Host) (st : State) (editor : Editor.t) :
  activeEditor st = Some editor →
  let new := drop (length (log st)) (log (_prettify host st)) in
  count (isSetProjectBusy true) new = 1 ∧
  count (isSetProjectBusy false) new
  = match fst (_getBeautifiedCodeDetails host editor) with
    | Fulfilled (Details (Some changed) _) => if bool_decide (changed = "") then 0 else 1
    | Rejected _ => 1
    | _ => 0
    end.
Proof.
  intros Hed new. subst new.
  rewrite (prettify_log host st editor Hed), drop_app_length.
  rewrite !count_cons, !count_app. simpl.
  unfold _getBeautifiedCodeDetails at 1 3.
  rewrite !tryProviders_count_other by done.
  destruct (fst (_getBeautifiedCodeDetails host editor)) as [[|[t|] r]|e|];
    simpl; try done.
  by case_bool_decide.
Qed.

(** X7.  [_prettify] never touches [localStorage] or the checkmark of the
    "beautify on save" command, never changes which file the active editor
    shows, and only adds to the log; without an active editor it does
    nothing at all. *)
Theorem prettify_leaves_the_rest (host : Host) (st : State) :
  let st' := _prettify host st in
  localStorage st' = localStorage st ∧
  beautifyOnSaveChecked st' = beautifyOnSaveChecked st ∧
  Editor.fullPath <$> activeEditor st' = Editor.fullPath <$> activeEditor st ∧
  Editor.name <$> activeEditor st' = Editor.name <$> activeEditor st ∧
  (∃ evs, log st' = log st ++ evs) ∧
  (activeEditor st = None → st' = st).
Proof.
  intros st'. subst st'.
  destruct (prettify_storage host st) as [Hls Hch].
  destruct (prettify_file host st) as [Hpath Hname].
  repeat split; try done.
  - destruct (activeEditor st) as [editor|] eqn:Hed.
    + rewrite (prettify_log host st editor Hed). by eexists.
    + exists []. unfold _prettify. by rewrite Hed, app_nil_r.
  - intros Hed. unfold _prettify. by rewrite Hed.
Qed.

(** ** More on [_replaceText] *)

Section TextMore.

Implicit Types s t u : string.
Implicit Types n i j : nat.

Lemma length_sliceFrom n s : String.length (sliceFrom n s) = String.length s - n.
Proof.
  revert s; induction n as [|n IH]; intros [|a s]; simpl; try done; lia.
Qed.

Lemma slice_decompose i j s :
  i ≤ j → sliceTo i s +:+ slice i j s +:+ sliceFrom j s = s.
Proof.
  intros Hij. unfold slice.
  replace j with (i + (j - i)) at 2 by lia.
  rewrite sliceFrom_plus, sliceTo_sliceFrom. apply sliceTo_sliceFrom.
Qed.

Lemma append_cancel_l s t u : s +:+ t = s +:+ u → t = u.
Proof.
  induction s as [|a s IH]; [done |].
  rewrite !append_cons. intros [= H]. by apply IH.
Qed.

Lemma append_cancel_r s t u : t +:+ s = u +:+ s → t = u.
Proof.
  revert u; induction t as [|a t IH]; intros [|b u].
  - done.
  - intros H. apply (f_equal String.length) in H.
    rewrite !length_append in H. simpl in H. lia.
  - intros H. apply (f_equal String.length) in H.
    rewrite !length_append in H. simpl in H. lia.
  - rewrite !append_cons. intros [= -> H]. f_equal. by apply IH.
Qed.

(** Putting [new] in place of the span changes the text unless the span
    held [new] already. *)
Lemma splice_same i j new s :
  i ≤ j → Editor.splice i j new s = s → slice i j s = new.
Proof.
  intros Hij Hsame. unfold Editor.splice in Hsame.
  rewrite <- (slice_decompose i j s Hij) in Hsame at 3.
  apply append_cancel_l, append_cancel_r in Hsame. done.
Qed.

Lemma length_splice i j new s :
  i ≤ j → j ≤ String.length s →
  String.length (Editor.splice i j new s) + (j - i)
  = String.length s + String.length new.
Proof.
  intros Hij Hj. unfold Editor.splice.
  rewrite !length_append, length_sliceTo, length_sliceFrom by lia. lia.
Qed.

End TextMore.

(** X8.  Whatever the editor held, after [_replaceText] with a result
    without [ranges] the text of the document is [changedText], at most one
    undo entry was added, and applying the same result once more changes
    nothing. *)
Theorem replaceText_whole_document_settles (editor : Editor.t) (changed : string) :
  let obj := mkBeautyObject changed None in
  let editor' := _replaceText editor obj in
  Editor.text editor' = changed ∧
  length (Editor.history editor') ≤ S (length (Editor.history editor)) ∧
  _replaceText editor' obj = editor'.
Proof.
  intros obj editor'.
  assert (Htext : Editor.text editor' = changed).
  { subst editor' obj. unfold _replaceText. cbn [ranges changedText].
    rewrite getRange_whole. case_bool_decide as Hcmp.
    - unfold Editor.setCursorPos, Editor.replaceRange, Editor.getEndingCursorPos.
      cbn [Editor.text].
      rewrite offsetOf_origin, offsetOf_end, Nat.min_0_l, Nat.max_0_l.
      apply splice_whole.
    - by destruct (decide (Editor.text editor = changed)). }
  split; [done |]. split.
  - subst editor' obj. unfold _replaceText. cbn [ranges changedText].
    case_bool_decide; simpl; lia.
  - unfold _replaceText at 1. subst obj. cbn [ranges changedText].
    rewrite getRange_whole, Htext.
    rewrite bool_decide_eq_false_2; [done | by intros []].
Qed.

(** X9.  With [ranges] whose start is not after their end, whichever branch
    [_replaceText] takes, the text afterwards is the old text with the range
    replaced by [changedText], and its length is the old length minus the
    length of the range plus the length of [changedText]. *)
Theorem replaceText_ranges_result (editor : Editor.t) (changed : string) (rg : Ranges) :
  let s := Editor.text editor in
  let i := offsetOf s (replaceStart rg) in
  let j := offsetOf s (replaceEnd rg) in
  let editor' := _replaceText editor (mkBeautyObject changed (Some rg)) in
  i ≤ j →
  Editor.text editor' = sliceTo i s +:+ changed +:+ sliceFrom j s ∧
  String.length (Editor.text editor') + (j - i)
  = String.length s + String.length changed.
Proof.
  intros s i j editor' Hij.
  assert (Hj : j ≤ String.length s) by apply indexFromPos_le.
  assert (Htext : Editor.text editor' = Editor.splice i j changed s).
  { subst editor'. unfold _replaceText. cbn [ranges changedText].
    unfold Editor.getRange. fold s i j.
    case_bool_decide as Hcmp.
    - unfold Editor.replaceSelection_around, Editor.setSelection.
      cbn [Editor.text Editor.anchor Editor.head]. fold s i j.
      by rewrite (Nat.min_l i j), (Nat.max_r i j).
    - assert (Heq : slice i j s = changed)
        by by destruct (decide (slice i j s = changed)).
      unfold Editor.splice. rewrite <- Heq. fold s.
      by rewrite slice_decompose. }
  split; [done |]. rewrite Htext. by apply length_splice.
Qed.

(** X10.  [_replaceText] adds an undo entry exactly when it changes the
    text: either the editor is left as it was, or the text is different and
    the old text is the one new entry on top of the undo history.  For a
    result with [ranges], their start must not be after their end. *)
Theorem replaceText_undo_entry_iff_text_changes (editor : Editor.t) (obj : BeautyObject) :
  match ranges obj with
  | Some rg => offsetOf (Editor.text editor) (replaceStart rg)
               ≤ offsetOf (Editor.text editor) (replaceEnd rg)
  | None => True
  end →
  let editor' := _replaceText editor obj in
  (editor' = editor ∧ Editor.text editor' = Editor.text editor)
  ∨ (Editor.text editor' ≠ Editor.text editor
     ∧ Editor.history editor' = Editor.text editor :: Editor.history editor).
Proof.
  destruct obj as [changed [rg|]]; intros Hij editor'; cbn [ranges] in Hij.
  - subst editor'. unfold _replaceText. cbn [ranges changedText].
    unfold Editor.getRange.
    set (s := Editor.text editor) in *.
    set (i := offsetOf s (replaceStart rg)) in *.
    set (j := offsetOf s (replaceEnd rg)) in *.
    case_bool_decide as Hcmp; [right | by left].
    unfold Editor.replaceSelection_around, Editor.setSelection.
    cbn [Editor.text Editor.anchor Editor.head Editor.history]. fold s i j.
    rewrite (Nat.min_l i j), (Nat.max_r i j) by done.
    split; [| done]. intros Hsame. by apply Hcmp, splice_same.
  - subst editor'. unfold _replaceText. cbn [ranges changedText].
    rewrite getRange_whole.
    case_bool_decide as Hcmp; [right | by left].
    unfold Editor.setCursorPos, Editor.replaceRange, Editor.getEndingCursorPos.
    cbn [Editor.text Editor.history].
    rewrite offsetOf_origin, offsetOf_end, Nat.min_0_l, Nat.max_0_l, splice_whole.
    split; [intros Heq; by apply Hcmp | done].
Qed.

(** ** More on the save handler, the toggle and the registrations *)

Section Handlers.

Context (host : Host).
Implicit Types (st : State) (s : Session) (doc : Document).



(** Every handler keeps the checkmark in step with the preference. *)
Lemma handle_keeps_checkmark t s :
  beautifyOnSaveChecked (moduleState s) = _isBeautifyOnSaveEnabled (moduleState s) →
  beautifyOnSaveChecked (moduleState (handle host t s))
  = _isBeautifyOnSaveEnabled (moduleState (handle host t s)).
Proof.
  intros Hsync. destruct t as [| |current|doc]; cbn [handle moduleState].
  - destruct (prettify_storage host (moduleState s)) as [Hls Hch].
    unfold _isBeautifyOnSaveEnabled. by rewrite Hch, Hls.
  - destruct (toggle_once (moduleState s)) as (Hon & _ & Hch).
    by rewrite Hch, Hon.
  - done.
  - destruct (prettifyOnSave_storage host doc (moduleState s)) as [Hls Hch].
    unfold _isBeautifyOnSaveEnabled. by rewrite Hch, Hls.
Qed.

(** Every handler but the one of [activeEditorChange] leaves the enabled
    flag of the command and the file of the active editor alone. *)
Lemma handle_keeps_command t s :
  beautifyCommandEnabled s
  = _onActiveEditorChange host (activeEditor (moduleState s)) →
  beautifyCommandEnabled (handle host t s)
  = _onActiveEditorChange host (activeEditor (moduleState (handle host t s))).
Proof.
  intros Hinv. destruct t as [| |current|doc];
    cbn [handle moduleState beautifyCommandEnabled]; try done.
  - rewrite Hinv. apply onActiveEditorChange_by_path.
    by destruct (prettify_file host (moduleState s)) as [-> _].
  - rewrite Hinv. apply onActiveEditorChange_by_path.
    by rewrite prettifyOnSave_file.
Qed.

Lemma run_cons t ts s : run host (t :: ts) s = run host ts (handle host t s).
Proof. done. Qed.

Lemma run_invariant (P : Session → Prop) ts s :
  (∀ t s, P s → P (handle host t s)) → P s → P (run host ts s).
Proof.
  intros Hstep. revert s. induction ts as [|t ts IH]; intros s Hs; [done |].
  rewrite run_cons. by apply IH, Hstep.
Qed.

End Handlers.

(** X11.  With the preference on, saving the active document when nothing
    is registered for its language (the "beautify code" command is disabled
    for it) still runs the beautification: the selection is cleared, the
    busy signal is raised and cleared, and the user is shown the message for
    the whole document; the text stays. *)
Theorem save_without_providers_shows_failure (host : Host) (doc : Document)
    (st : State) (editor : Editor.t) :
  activeEditor st = Some editor →
  _isBeautifyOnSaveEnabled st = true →
  Editor.fullPath editor = docFullPath doc →
  _getEnabledProviders host editor = [] →
  let st' := _prettifyOnSave host doc st in
  _onActiveEditorChange host (Some editor) = false ∧
  activeEditor st' = Some (Editor.clearSelection editor) ∧
  drop (length (log st)) (log st')
  = [SetProjectBusy true (busyMessageOf host editor);
     DisplayErrorMessageAtCursor (BEAUTIFY_ERROR host);
     SetProjectBusy false (busyMessageOf host editor);
     ConsoleLog "No beautify providers responded"].
Proof.
  intros Hed Hon Hpath Hnone st'. subst st'.
  rewrite (prettifyOnSave_active host doc st editor Hed Hon Hpath).
  set (cleared := Editor.clearSelection editor).
  assert (Hdetails : _getBeautifiedCodeDetails host cleared
                     = (Rejected "No Providers beautified text", [])).
  { unfold _getBeautifiedCodeDetails.
    change (_getEnabledProviders host cleared) with (_getEnabledProviders host editor).
    by rewrite Hnone. }
  split; [simpl; by rewrite Hnone |].
  split.
  - by rewrite (prettify_editor host _ cleared), Hdetails.
  - rewrite (prettify_log host _ cleared), Hdetails by done.
    cbn [fst snd settledEvents withEditor log app].
    rewrite drop_app_length. unfold failureMessage. subst cleared.
    by rewrite (clearSelection_no_selection editor).
Qed.


(** X13.  One toggle, from any state, leaves one of the literals ["true"]
    and ["false"] stored, the flipped preference, and the command checked
    as the preference says; the other keys of [localStorage], the editor and
    the log are as they were. *)
Theorem toggle_once_settles (st : State) :
  let st1 := _toggleBeautifyOnSave st in
  _isBeautifyOnSaveEnabled st1 = negb (_isBeautifyOnSaveEnabled st) ∧
  (storedBeautifyOnSave st1 = Some "true" ∨ storedBeautifyOnSave st1 = Some "false") ∧
  beautifyOnSaveChecked st1 = _isBeautifyOnSaveEnabled st1 ∧
  (∀ key, key ≠ "BeautifyOnSave" → localStorage st1 !! key = localStorage st !! key) ∧
  activeEditor st1 = activeEditor st ∧ log st1 = log st.
Proof.
  intros st1. destruct (toggle_once st) as (Hon & Hst & Hch). fold st1 in Hon, Hst, Hch.
  split; [done |]. split.
  { rewrite Hst. destruct (_isBeautifyOnSaveEnabled st); [by right | by left]. }
  split; [by rewrite Hch, Hon |].
  split; [| done].
  intros key Hkey. subst st1. unfold _toggleBeautifyOnSave. cbn [localStorage].
  by rewrite lookup_insert_ne.
Qed.

(** X14.  From start-up on the checkmark of the "beautify on save" command
    shows the stored preference: it does after [appReady], and after any
    sequence of commands, editor changes and saves that follows. *)
Theorem checkmark_shows_preference (host : Host) (ts : list Trigger) (s : Session) :
  let s' := run host ts (appReady s) in
  beautifyOnSaveChecked (moduleState s') = _isBeautifyOnSaveEnabled (moduleState s').
Proof.
  intros s'. subst s'.
  apply (run_invariant host
           (λ s, beautifyOnSaveChecked (moduleState s)
                 = _isBeautifyOnSaveEnabled (moduleState s))).
  - intros t s0. apply handle_keeps_checkmark.
  - done.
Qed.

(** X15.  Once [activeEditorChange] was handled, the "beautify code" command
    is enabled exactly when there is an active editor and something is
    registered for the language of its file, and this stays so through any
    commands, saves and further editor changes: beautifying, toggling and
    saving never change the file of the active editor. *)
Theorem command_enabled_iff_providers (host : Host) (current : option Editor.t)
    (ts : list Trigger) (s : Session) :
  let s' := run host (ActiveEditorChange current :: ts) s in
  beautifyCommandEnabled s' = _onActiveEditorChange host (activeEditor (moduleState s'))
  ∧ (beautifyCommandEnabled s' = true
     ↔ ∃ editor, activeEditor (moduleState s') = Some editor
                 ∧ _getEnabledProviders host editor ≠ []).
Proof.
  intros s'.
  assert (Hinv : beautifyCommandEnabled s'
                 = _onActiveEditorChange host (activeEditor (moduleState s'))).
  { subst s'. rewrite run_cons.
    apply (run_invariant host
             (λ s, beautifyCommandEnabled s
                   = _onActiveEditorChange host (activeEditor (moduleState s)))).
    - intros t s0. apply handle_keeps_command.
    - done. }
  split; [done |]. rewrite Hinv.
  destruct (activeEditor (moduleState s')) as [editor|]; simpl.
  - case_bool_decide as Hlen.
    + split; [| done]. intros _. exists editor. split; [done |].
      intros Hnil. by rewrite Hnil in Hlen.
    + split; [done |]. intros (e & [= <-] & Hne). exfalso. apply Hne.
      by destruct (_getEnabledProviders host editor).
  - split; [done |]. by intros (e & ? & _).
Qed.

(** ** Further instances *)

(** A malformed entry, a provider resolving with [null] and one that
    rejects, ahead of one that resolves with an empty [changedText]. *)
Lemma first_object_decides_witness :
  let pre := [Sample.malformed "M"; Sample.resolvesNull "N"; Sample.declines "A"] in
  let b := Sample.resolvesText "B" "" in
  let post := [Sample.resolvesText "C" "Y"] in
  let host := Sample.hostWith (pre ++ b :: post) in
  Forall (λ item, letsLoopContinue Sample.editor item = true) pre ∧
  _getBeautifiedCodeDetails host Sample.editor
  = (Fulfilled (Details (Some "") None),
     [ConsoleError "M"; BeautifyCalled "N" Sample.editor;
      BeautifyCalled "A" Sample.editor; BeautifyCalled "B" Sample.editor]).
Proof.
  intros pre b post host.
  assert (Hpre : Forall (λ item, letsLoopContinue Sample.editor item = true) pre)
    by (repeat constructor).
  split; [exact Hpre |].
  exact (first_object_decides host Sample.editor pre b post (Some "") None
           eq_refl Hpre eq_refl).
Defined.

(** A provider that never settles, between one that rejects and one that
    would resolve with text. *)
Lemma never_settling_provider_hangs_witness :
  let host := Sample.hostWith
                [Sample.declines "A"; Scenario.neverSettles "H"; Sample.resolvesText "B" "X"] in
  let st := Sample.state None false in
  activeEditor (_prettify host st) = Some Sample.editor ∧
  drop (length (log st)) (log (_prettify host st))
  = [SetProjectBusy true "Beautifying main.js";
     BeautifyCalled "A" Sample.editor; BeautifyCalled "H" Sample.editor].
Proof.
  intros host st.
  destruct (never_settling_provider_hangs host st Sample.editor
              [Sample.declines "A"] (Scenario.neverSettles "H")
              [Sample.resolvesText "B" "X"])
    as (Hed & Hnew & _).
  - reflexivity.
  - reflexivity.
  - repeat constructor.
  - reflexivity.
  - split; [exact Hed | exact Hnew].
Defined.

(** A provider that resolves with text: raised once, cleared once. *)
Lemma prettify_busy_signal_witness :
  let host := Sample.hostWith [Sample.resolvesText "B" "X"] in
  let st := Sample.state None false in
  count (isSetProjectBusy true) (drop (length (log st)) (log (_prettify host st))) = 1 ∧
  count (isSetProjectBusy false) (drop (length (log st)) (log (_prettify host st))) = 1.
Proof.
  intros host st.
  destruct (prettify_busy_signal host st Sample.editor eq_refl) as [Hup Hdown].
  split; [exact Hup | exact Hdown].
Defined.

(** The nine characters of the first line give way to ten. *)
Lemma replaceText_ranges_result_witness :
  let rg := mkRanges (mkPos 0 0) (mkPos 0 9) in
  offsetOf (Editor.text Sample.editor) (replaceStart rg)
  ≤ offsetOf (Editor.text Sample.editor) (replaceEnd rg) ∧
  String.length (Editor.text (_replaceText Sample.editor
                                (mkBeautyObject "let x = 1;" (Some rg)))) + 9 = 30.
Proof.
  intros rg.
  assert (Hle : offsetOf (Editor.text Sample.editor) (replaceStart rg)
                ≤ offsetOf (Editor.text Sample.editor) (replaceEnd rg))
    by (vm_compute; lia).
  split; [exact Hle |].
  destruct (replaceText_ranges_result Sample.editor "let x = 1;" rg Hle) as [_ Hlen].
  exact Hlen.
Defined.

(** A ranged result that repeats the text of its range adds no undo entry. *)
Lemma replaceText_undo_entry_iff_text_changes_witness :
  let rg := mkRanges (mkPos 1 0) (mkPos 1 10) in
  let obj := mkBeautyObject "let y = 2;" (Some rg) in
  offsetOf (Editor.text Sample.editor) (replaceStart rg)
  ≤ offsetOf (Editor.text Sample.editor) (replaceEnd rg) ∧
  Editor.history (_replaceText Sample.editor obj) = [].
Proof.
  intros rg obj.
  assert (Hle : offsetOf (Editor.text Sample.editor) (replaceStart rg)
                ≤ offsetOf (Editor.text Sample.editor) (replaceEnd rg))
    by (vm_compute; lia).
  split; [exact Hle |].
  destruct (replaceText_undo_entry_iff_text_changes Sample.editor obj Hle)
    as [[-> _] | [Hne _]].
  - reflexivity.
  - exfalso. apply Hne. reflexivity.
Defined.

(** Saving a Python file while only JavaScript has a provider. *)
Lemma save_without_providers_shows_failure_witness :
  let host := Scenario.hostByExtension [Sample.resolvesText "B" "X"] in
  let st := mkState (Some Scenario.pythonEditor) {[ "BeautifyOnSave" := "true" ]} true [] in
  _getEnabledProviders host Scenario.pythonEditor = [] ∧
  _getEnabledProviders host Sample.editor ≠ [] ∧
  log (_prettifyOnSave host (mkDocument "/project/tool.py") st)
  = [SetProjectBusy true "Beautifying tool.py";
     DisplayErrorMessageAtCursor "Could not beautify code";
     SetProjectBusy false "Beautifying tool.py";
     ConsoleLog "No beautify providers responded"].
Proof.
  intros host st.
  split; [reflexivity |]. split; [discriminate |].
  destruct (save_without_providers_shows_failure host (mkDocument "/project/tool.py")
              st Scenario.pythonEditor)
    as (_ & _ & Hnew).
  - reflexivity.
  - reflexivity.
  - reflexivity.
  - reflexivity.
  - exact Hnew.
Defined.

(** ** The first truthy result *)

Section FirstResult.

Implicit Types (editor : Editor.t) (items : list Item).

(** Every item the loop handles is logged once, as a call or as a
    diagnostic. *)
Lemma count_eventOf_handled editor items :
  count isBeautifyCalled (map (eventOf editor) items)
  + count isConsoleError (map (eventOf editor) items) = length items.
Proof.
  induction items as [|item items IH]; [done |].
  cbn [map]. rewrite !count_cons. unfold eventOf at 1 3, called.
  destruct (beautify (provider item)); simpl in *; lia.
Qed.

(** Items that all have a [beautify] are logged as calls only. *)
Lemma eventOf_all_called editor items :
  Forall (λ item, beautify (provider item) ≠ None) items →
  map (eventOf editor) items = map (called editor) items.
Proof.
  induction 1 as [|item items Hitem _ IH]; [done |].
  cbn [map]. rewrite IH. f_equal.
  destruct (beautify (provider item)) as [f|] eqn:Hf; [| done].
  by apply (eventOf_some editor item f).
Qed.

End FirstResult.

(** C2, as the code has it.  The candidates are tried in order.  When the
    items ahead of [b] let the loop continue (a provider that rejects or
    throws, which logs nothing, an entry without [beautify], which logs a
    diagnostic, or a falsy resolution) and [b] resolves with an object, the
    loop ends at [b]: each item up to [b] is handled once, in order, no item
    behind [b] is called, and no failure message is shown.  The result of
    [b] is put into the editor through [_replaceText] when its [changedText]
    is a non-empty string; when [changedText] is missing or empty the editor
    is left as it was and nothing more is logged. *)
Theorem first_object_ends_the_loop (host : Host) (st : State) (editor : Editor.t)
    (pre : list Item) (b : Item) (post : list Item)
    (t : option string) (r : option Ranges) :
  activeEditor st = Some editor →
  _getEnabledProviders host editor = pre ++ b :: post →
  Forall (λ item, letsLoopContinue editor item = true) pre →
  answer b editor = Some (Resolves (Details t r)) →
  let st' := _prettify host st in
  let new := drop (length (log st)) (log st') in
  let handled := map (eventOf editor) (pre ++ [b]) in
  (∀ changed, t = Some changed → changed ≠ "" →
     activeEditor st' = Some (_replaceText editor (mkBeautyObject changed r)) ∧
     new = SetProjectBusy true (busyMessageOf host editor) :: handled
             ++ [SetProjectBusy false (busyMessageOf host editor);
                 ConsoleLog "Beautified"]) ∧
  (t = None ∨ t = Some "" →
     activeEditor st' = Some editor ∧
     new = SetProjectBusy true (busyMessageOf host editor) :: handled) ∧
  count isBeautifyCalled new + count isConsoleError new = length pre + 1 ∧
  count isDisplayErrorMessage new = 0 ∧
  (Forall (λ item, beautify (provider item) ≠ None) pre →
     handled = map (called editor) (pre ++ [b]) ∧
     count isBeautifyCalled new = length pre + 1 ∧
     count isConsoleError new = 0).
Proof.
  intros Hed Hitems Hpre Hb st' new handled.
  assert (Hbf : beautify (provider b) ≠ None).
  { unfold answer in Hb. by destruct (beautify (provider b)). }
  assert (Hdetails : _getBeautifiedCodeDetails host editor
                     = (Fulfilled (Details t r), handled)).
  { unfold _getBeautifiedCodeDetails.
    rewrite Hitems, tryProviders_app, (tryProviders_continuing _ _ Hpre).
    subst handled. rewrite map_app. cbn [map tryProviders]. unfold answer in Hb.
    destruct (beautify (provider b)) as [f|] eqn:Hf; simpl in Hb; [| done].
    rewrite (eventOf_some editor b f Hf).
    injection Hb as ->. done. }
  assert (Hnew : new = SetProjectBusy true (busyMessageOf host editor) :: handled
                         ++ settledEvents host editor (Fulfilled (Details t r))).
  { subst new st'. rewrite (prettify_log host st editor Hed), Hdetails.
    cbn [fst snd]. by rewrite drop_app_length. }
  assert (Hst' : activeEditor st'
                 = match t with
                   | Some changed =>
                       if bool_decide (changed = "") then Some editor
                       else Some (_replaceText editor (mkBeautyObject changed r))
                   | None => Some editor
                   end).
  { subst st'. rewrite (prettify_editor host st editor Hed), Hdetails.
    cbn [fst]. by destruct t. }
  assert (Hhandled : count isBeautifyCalled handled + count isConsoleError handled
                     = length pre + 1).
  { subst handled. rewrite count_eventOf_handled, length_app. simpl. lia. }
  assert (Hsettled :
    count isBeautifyCalled (settledEvents host editor (Fulfilled (Details t r))) = 0
    ∧ count isConsoleError (settledEvents host editor (Fulfilled (Details t r))) = 0
    ∧ count isDisplayErrorMessage (settledEvents host editor (Fulfilled (Details t r))) = 0).
  { destruct t as [changed|]; simpl; [| done]. by case_bool_decide. }
  destruct Hsettled as (Hs1 & Hs2 & Hs3).
  split.
  { intros changed -> Hne. rewrite Hst', Hnew. simpl.
    by rewrite !bool_decide_eq_false_2. }
  split.
  { intros [-> | ->]; rewrite Hst', Hnew; simpl; by rewrite app_nil_r. }
  split.
  { rewrite Hnew, !count_cons, !count_app, Hs1, Hs2. simpl. lia. }
  split.
  { rewrite Hnew, count_cons, count_app, Hs3. subst handled.
    by rewrite count_eventOf_other. }
  intros Hall.
  assert (Hcalled : handled = map (called editor) (pre ++ [b])).
  { subst handled. apply eventOf_all_called.
    apply Forall_app. split; [done |]. by constructor. }
  split; [done |].
  rewrite Hnew, !count_cons, !count_app, Hs1, Hs2, Hcalled.
  destruct (count_called editor (pre ++ [b])) as (-> & -> & _).
  rewrite length_app. simpl. split; lia.
Qed.

(** C2 as stated fails when a provider ahead of the first usable one
    resolves with an object whose [changedText] is empty: A resolves with
    [{changedText: ""}], B with [{changedText: "X"}]; the loop ends at A, B
    is never called and the text of B is not put into the editor. *)
Lemma empty_changedText_ends_the_loop_before_usable_result :
  let a := Sample.resolvesText "A" "" in
  let b := Sample.resolvesText "B" "X" in
  let host := Sample.hostWith [a; b] in
  let st := Sample.state None false in
  answer a Sample.editor = Some (Resolves (Details (Some "") None)) ∧
  answer b Sample.editor = Some (Resolves (Details (Some "X") None)) ∧
  log (_prettify host st)
  = [SetProjectBusy true "Beautifying main.js"; BeautifyCalled "A" Sample.editor] ∧
  activeEditor (_prettify host st) = Some Sample.editor ∧
  Editor.text <$> activeEditor (_prettify host st) ≠ Some "X".
Proof. vm_compute. by repeat split. Qed.

(** A malformed entry and a provider that rejects, ahead of B, which
    resolves with text; C is registered behind B. *)
Lemma first_object_ends_the_loop_witness :
  let pre := [Sample.malformed "M"; Sample.declines "A"] in
  let b := Sample.resolvesText "B" "X" in
  let host := Sample.hostWith (pre ++ b :: [Sample.resolvesText "C" "Y"]) in
  let st := Sample.state None false in
  Forall (λ item, letsLoopContinue Sample.editor item = true) pre ∧
  Editor.text <$> activeEditor (_prettify host st) = Some "X" ∧
  drop (length (log st)) (log (_prettify host st))
  = [SetProjectBusy true "Beautifying main.js";
     ConsoleError "M"; BeautifyCalled "A" Sample.editor; BeautifyCalled "B" Sample.editor;
     SetProjectBusy false "Beautifying main.js"; ConsoleLog "Beautified"].
Proof.
  intros pre b host st.
  assert (Hpre : Forall (λ item, letsLoopContinue Sample.editor item = true) pre)
    by (repeat constructor).
  split; [exact Hpre |].
  destruct (first_object_ends_the_loop host st Sample.editor pre b
              [Sample.resolvesText "C" "Y"] (Some "X") None
              eq_refl eq_refl Hpre eq_refl)
    as (Husable & _).
  destruct (Husable "X" eq_refl) as [Hed Hnew]; [discriminate |].
  split; [by rewrite Hed | exact Hnew].
Defined.
